(** * pptx2md: the configuration and the document model of [pptx2md/types.py]

    The module declares pydantic models only: the conversion configuration,
    the style/run/position value objects, the eight slide element classes,
    the [SlideElement] union, [Slide] and [ParsedPresentation].

    A pydantic model class is embedded as a record (its fields, in
    declaration order) together with the constructor pydantic derives from
    the annotations: keyword arguments that may each be omitted, a default
    filled in for every omitted field that declares one, and a
    [ValidationError] naming every omitted field that declares none.  The
    rules are those of pydantic 2: a field annotated [Optional[...]] without
    a default is required, and a mutable default such as [{}] is copied for
    each instance.  Keyword arguments are taken at the annotated type, so
    the coercions and type errors of pydantic's validators and the (ignored)
    surplus keywords are outside the model.

    None of the classes sets [frozen] or [validate_assignment], and the
    [List] and [dict] fields hold ordinary Python lists and dicts.  Identity
    and mutation are embedded in an object store: model instances, lists and
    dicts are objects reached by reference, attribute assignment stores the
    new value in the named field of the instance, and lists and dicts are
    updated in place. *)

From Stdlib Require Import ZArith List Bool Lia.
From Stdlib Require PrimFloat.
From stdpp Require Import base option list strings gmap.

Local Open Scope string_scope.
Local Open Scope list_scope.
Local Open Scope Z_scope.

(** ** Construction results *)

Module Pydantic.

(** Outcome of calling a model class: the instance, or the validation
    error with the names of the fields reported missing, in field order. *)
Inductive result (A : Type) : Type :=
| Ok (v : A)
| ValidationError (missing : list string).

Arguments Ok {A} v.
Arguments ValidationError {A} missing.

(** A field without default: the keyword must be present. *)
Definition required {A : Type} (name : string) (arg : option A) : result A :=
  match arg with
  | Some v => Ok v
  | None => ValidationError [name]
  end.

(** A field with default [d]: an omitted keyword yields [d]. *)
Definition defaulted {A : Type} (d : A) (arg : option A) : result A :=
  Ok (default d arg).

(** Field-by-field validation: all fields are validated and the errors of
    all of them are collected. *)
Definition ap {A B : Type} (rf : result (A -> B)) (ra : result A) : result B :=
  match rf, ra with
  | Ok f, Ok a => Ok (f a)
  | Ok _, ValidationError m => ValidationError m
  | ValidationError m, Ok _ => ValidationError m
  | ValidationError m1, ValidationError m2 => ValidationError (m1 ++ m2)
  end.

Definition is_ok {A : Type} (r : result A) : bool :=
  match r with
  | Ok _ => true
  | ValidationError _ => false
  end.

Definition errors {A : Type} (r : result A) : list string :=
  match r with
  | Ok _ => []
  | ValidationError m => m
  end.

End Pydantic.

Import Pydantic.

Notation "rf <*> ra" := (ap rf ra) (at level 61, left associativity).

(** [pathlib.Path], by the string it was built from. *)
Record Path : Type := mkPath { path_str : string }.

(** ** ElementType *)

Module ElementType.

Inductive t : Type :=
| TITLE
| LIST_ITEM
| PARAGRAPH
| IMAGE
| TABLE
| NOTE
| COLUMN_START
| COLUMN_END.

(** The member's value ([ElementType] is a [str] enum). *)
Definition value (e : t) : string :=
  match e with
  | TITLE => "title"
  | LIST_ITEM => "list_item"
  | PARAGRAPH => "paragraph"
  | IMAGE => "image"
  | TABLE => "table"
  | NOTE => "note"
  | COLUMN_START => "column_start"
  | COLUMN_END => "column_end"
  end.

Definition members : list t :=
  [TITLE; LIST_ITEM; PARAGRAPH; IMAGE; TABLE; NOTE; COLUMN_START; COLUMN_END].

#[global] Instance eq_dec : EqDecision t.
Proof. solve_decision. Defined.

End ElementType.

(** ** TextStyle, TextRun, Position *)

Module TextStyle.

Record t : Type := mk {
  is_accent : bool;
  is_strong : bool;
  color_rgb : option string;
  hyperlink : option string
}.

Record kwargs : Type := Kwargs {
  kw_is_accent : option bool;
  kw_is_strong : option bool;
  kw_color_rgb : option (option string);
  kw_hyperlink : option (option string)
}.

Definition init (kw : kwargs) : result t :=
  Ok mk
    <*> defaulted false (kw_is_accent kw)
    <*> defaulted false (kw_is_strong kw)
    <*> defaulted None (kw_color_rgb kw)
    <*> defaulted None (kw_hyperlink kw).

End TextStyle.

Module TextRun.

Record t : Type := mk {
  text : string;
  style : TextStyle.t
}.

Record kwargs : Type := Kwargs {
  kw_text : option string;
  kw_style : option TextStyle.t
}.

Definition init (kw : kwargs) : result t :=
  Ok mk
    <*> required "text" (kw_text kw)
    <*> required "style" (kw_style kw).

End TextRun.

Module Position.

Record t : Type := mk {
  left : PrimFloat.float;
  top : PrimFloat.float;
  width : PrimFloat.float;
  height : PrimFloat.float
}.

Record kwargs : Type := Kwargs {
  kw_left : option PrimFloat.float;
  kw_top : option PrimFloat.float;
  kw_width : option PrimFloat.float;
  kw_height : option PrimFloat.float
}.

Definition init (kw : kwargs) : result t :=
  Ok mk
    <*> required "left" (kw_left kw)
    <*> required "top" (kw_top kw)
    <*> required "width" (kw_width kw)
    <*> required "height" (kw_height kw).

End Position.

(** ** ConversionConfig *)

Module ConversionConfig.

Record t : Type := mk {
  pptx_path : Path;
  output_path : Path;
  image_dir : option Path;
  title_path : option Path;
  image_width : option Z;
  disable_image : bool;
  disable_wmf : bool;
  disable_color : bool;
  disable_escaping : bool;
  disable_notes : bool;
  enable_slides : bool;
  is_wiki : bool;
  is_mdk : bool;
  is_qmd : bool;
  min_block_size : Z;
  page : option Z;
  custom_titles : gmap string Z
}.

(** The keyword arguments of a call [ConversionConfig(...)]: [None] is an
    omitted keyword; for the [Optional] fields [Some None] is the keyword
    given as Python's [None]. *)
Record kwargs : Type := Kwargs {
  kw_pptx_path : option Path;
  kw_output_path : option Path;
  kw_image_dir : option (option Path);
  kw_title_path : option (option Path);
  kw_image_width : option (option Z);
  kw_disable_image : option bool;
  kw_disable_wmf : option bool;
  kw_disable_color : option bool;
  kw_disable_escaping : option bool;
  kw_disable_notes : option bool;
  kw_enable_slides : option bool;
  kw_is_wiki : option bool;
  kw_is_mdk : option bool;
  kw_is_qmd : option bool;
  kw_min_block_size : option Z;
  kw_page : option (option Z);
  kw_custom_titles : option (gmap string Z)
}.

Definition init (kw : kwargs) : result t :=
  Ok mk
    <*> required "pptx_path" (kw_pptx_path kw)
    <*> required "output_path" (kw_output_path kw)
    <*> required "image_dir" (kw_image_dir kw)
    <*> required "title_path" (kw_title_path kw)
    <*> defaulted None (kw_image_width kw)
    <*> defaulted false (kw_disable_image kw)
    <*> defaulted false (kw_disable_wmf kw)
    <*> defaulted false (kw_disable_color kw)
    <*> defaulted false (kw_disable_escaping kw)
    <*> defaulted false (kw_disable_notes kw)
    <*> defaulted false (kw_enable_slides kw)
    <*> defaulted false (kw_is_wiki kw)
    <*> defaulted false (kw_is_mdk kw)
    <*> defaulted false (kw_is_qmd kw)
    <*> defaulted 15 (kw_min_block_size kw)
    <*> defaulted None (kw_page kw)
    <*> defaulted ∅ (kw_custom_titles kw).

(** A call that passes no keyword at all. *)
Definition no_kwargs : kwargs :=
  Kwargs None None None None None None None None None None None None None
         None None None None.

(** A call that passes the four keywords without default and nothing else. *)
Definition only_required (pptx out : Path) (img title : option Path) : kwargs :=
  Kwargs (Some pptx) (Some out) (Some img) (Some title) None None None None
         None None None None None None None None None.

(** The dialect selectors that are set. *)
Definition selectors (c : t) : list bool :=
  filter (fun b => b = true) [is_wiki c; is_mdk c; is_qmd c].

Definition selectors_given (kw : kwargs) : list bool :=
  filter (fun b => b = true)
    [default false (kw_is_wiki kw); default false (kw_is_mdk kw);
     default false (kw_is_qmd kw)].

(** The keywords of [kw] with the three dialect selectors and
    [enable_slides] replaced. *)
Definition with_toggles (kw : kwargs) (wiki mdk qmd slides : option bool) : kwargs :=
  Kwargs (kw_pptx_path kw) (kw_output_path kw) (kw_image_dir kw)
    (kw_title_path kw) (kw_image_width kw) (kw_disable_image kw)
    (kw_disable_wmf kw) (kw_disable_color kw) (kw_disable_escaping kw)
    (kw_disable_notes kw) slides wiki mdk qmd (kw_min_block_size kw)
    (kw_page kw) (kw_custom_titles kw).

End ConversionConfig.

(** ** Slide elements

    [BaseElement] declares [type] without default and the optional
    [position] and [style]; each subclass redeclares [type] with a default
    and adds its own fields after the inherited ones. *)

Module BaseElement.

Record t : Type := mk {
  type : ElementType.t;
  position : option Position.t;
  style : option TextStyle.t
}.

Record kwargs : Type := Kwargs {
  kw_type : option ElementType.t;
  kw_position : option (option Position.t);
  kw_style : option (option TextStyle.t)
}.

Definition init (kw : kwargs) : result t :=
  Ok mk
    <*> required "type" (kw_type kw)
    <*> defaulted None (kw_position kw)
    <*> defaulted None (kw_style kw).

End BaseElement.

Module TitleElement.

Record t : Type := mk {
  type : ElementType.t;
  position : option Position.t;
  style : option TextStyle.t;
  content : string;
  level : Z
}.

Record kwargs : Type := Kwargs {
  kw_type : option ElementType.t;
  kw_position : option (option Position.t);
  kw_style : option (option TextStyle.t);
  kw_content : option string;
  kw_level : option Z
}.

Definition init (kw : kwargs) : result t :=
  Ok mk
    <*> defaulted ElementType.TITLE (kw_type kw)
    <*> defaulted None (kw_position kw)
    <*> defaulted None (kw_style kw)
    <*> required "content" (kw_content kw)
    <*> required "level" (kw_level kw).

End TitleElement.

Module ListItemElement.

Record t : Type := mk {
  type : ElementType.t;
  position : option Position.t;
  style : option TextStyle.t;
  content : list TextRun.t;
  level : Z
}.

Record kwargs : Type := Kwargs {
  kw_type : option ElementType.t;
  kw_position : option (option Position.t);
  kw_style : option (option TextStyle.t);
  kw_content : option (list TextRun.t);
  kw_level : option Z
}.

Definition init (kw : kwargs) : result t :=
  Ok mk
    <*> defaulted ElementType.LIST_ITEM (kw_type kw)
    <*> defaulted None (kw_position kw)
    <*> defaulted None (kw_style kw)
    <*> required "content" (kw_content kw)
    <*> defaulted 1 (kw_level kw).

End ListItemElement.

Module ParagraphElement.

Record t : Type := mk {
  type : ElementType.t;
  position : option Position.t;
  style : option TextStyle.t;
  content : list TextRun.t
}.

Record kwargs : Type := Kwargs {
  kw_type : option ElementType.t;
  kw_position : option (option Position.t);
  kw_style : option (option TextStyle.t);
  kw_content : option (list TextRun.t)
}.

Definition init (kw : kwargs) : result t :=
  Ok mk
    <*> defaulted ElementType.PARAGRAPH (kw_type kw)
    <*> defaulted None (kw_position kw)
    <*> defaulted None (kw_style kw)
    <*> required "content" (kw_content kw).

End ParagraphElement.

Module ImageElement.

Record t : Type := mk {
  type : ElementType.t;
  position : option Position.t;
  style : option TextStyle.t;
  path : string;
  width : option Z;
  original_ext : string;
  alt_text : string
}.

Record kwargs : Type := Kwargs {
  kw_type : option ElementType.t;
  kw_position : option (option Position.t);
  kw_style : option (option TextStyle.t);
  kw_path : option string;
  kw_width : option (option Z);
  kw_original_ext : option string;
  kw_alt_text : option string
}.

Definition init (kw : kwargs) : result t :=
  Ok mk
    <*> defaulted ElementType.IMAGE (kw_type kw)
    <*> defaulted None (kw_position kw)
    <*> defaulted None (kw_style kw)
    <*> required "path" (kw_path kw)
    <*> defaulted None (kw_width kw)
    <*> defaulted EmptyString (kw_original_ext kw)
    <*> defaulted EmptyString (kw_alt_text kw).

End ImageElement.

Module TableElement.

Record t : Type := mk {
  type : ElementType.t;
  position : option Position.t;
  style : option TextStyle.t;
  content : list (list (list TextRun.t))
}.

Record kwargs : Type := Kwargs {
  kw_type : option ElementType.t;
  kw_position : option (option Position.t);
  kw_style : option (option TextStyle.t);
  kw_content : option (list (list (list TextRun.t)))
}.

Definition init (kw : kwargs) : result t :=
  Ok mk
    <*> defaulted ElementType.TABLE (kw_type kw)
    <*> defaulted None (kw_position kw)
    <*> defaulted None (kw_style kw)
    <*> required "content" (kw_content kw).

End TableElement.

Module NoteElement.

Record t : Type := mk {
  type : ElementType.t;
  position : option Position.t;
  style : option TextStyle.t;
  content : list TextRun.t
}.

Record kwargs : Type := Kwargs {
  kw_type : option ElementType.t;
  kw_position : option (option Position.t);
  kw_style : option (option TextStyle.t);
  kw_content : option (list TextRun.t)
}.

Definition init (kw : kwargs) : result t :=
  Ok mk
    <*> defaulted ElementType.NOTE (kw_type kw)
    <*> defaulted None (kw_position kw)
    <*> defaulted None (kw_style kw)
    <*> required "content" (kw_content kw).

End NoteElement.

Module ColumnStartElement.

Record t : Type := mk {
  type : ElementType.t;
  position : option Position.t;
  style : option TextStyle.t;
  width : string
}.

Record kwargs : Type := Kwargs {
  kw_type : option ElementType.t;
  kw_position : option (option Position.t);
  kw_style : option (option TextStyle.t);
  kw_width : option string
}.

Definition init (kw : kwargs) : result t :=
  Ok mk
    <*> defaulted ElementType.COLUMN_START (kw_type kw)
    <*> defaulted None (kw_position kw)
    <*> defaulted None (kw_style kw)
    <*> required "width" (kw_width kw).

End ColumnStartElement.

Module ColumnEndElement.

Record t : Type := mk {
  type : ElementType.t;
  position : option Position.t;
  style : option TextStyle.t
}.

Record kwargs : Type := Kwargs {
  kw_type : option ElementType.t;
  kw_position : option (option Position.t);
  kw_style : option (option TextStyle.t)
}.

Definition init (kw : kwargs) : result t :=
  Ok mk
    <*> defaulted ElementType.COLUMN_END (kw_type kw)
    <*> defaulted None (kw_position kw)
    <*> defaulted None (kw_style kw).

End ColumnEndElement.

(** ** SlideElement: the union of the eight element classes *)

Inductive SlideElement : Type :=
| OfTitle (e : TitleElement.t)
| OfListItem (e : ListItemElement.t)
| OfParagraph (e : ParagraphElement.t)
| OfImage (e : ImageElement.t)
| OfTable (e : TableElement.t)
| OfNote (e : NoteElement.t)
| OfColumnStart (e : ColumnStartElement.t)
| OfColumnEnd (e : ColumnEndElement.t).

(** The members of the union. *)
Inductive element_class : Type :=
| TitleElement_
| ListItemElement_
| ParagraphElement_
| ImageElement_
| TableElement_
| NoteElement_
| ColumnStartElement_
| ColumnEndElement_.

#[global] Instance element_class_eq_dec : EqDecision element_class.
Proof. solve_decision. Defined.

(** [type(e)] *)
Definition class_of (e : SlideElement) : element_class :=
  match e with
  | OfTitle _ => TitleElement_
  | OfListItem _ => ListItemElement_
  | OfParagraph _ => ParagraphElement_
  | OfImage _ => ImageElement_
  | OfTable _ => TableElement_
  | OfNote _ => NoteElement_
  | OfColumnStart _ => ColumnStartElement_
  | OfColumnEnd _ => ColumnEndElement_
  end.

(** The default each class declares for its [type] field. *)
Definition default_type (c : element_class) : ElementType.t :=
  match c with
  | TitleElement_ => ElementType.TITLE
  | ListItemElement_ => ElementType.LIST_ITEM
  | ParagraphElement_ => ElementType.PARAGRAPH
  | ImageElement_ => ElementType.IMAGE
  | TableElement_ => ElementType.TABLE
  | NoteElement_ => ElementType.NOTE
  | ColumnStartElement_ => ElementType.COLUMN_START
  | ColumnEndElement_ => ElementType.COLUMN_END
  end.

(** [e.type], [e.position], [e.style]: the fields every member inherits
    from [BaseElement]. *)
Definition type_of (e : SlideElement) : ElementType.t :=
  match e with
  | OfTitle x => TitleElement.type x
  | OfListItem x => ListItemElement.type x
  | OfParagraph x => ParagraphElement.type x
  | OfImage x => ImageElement.type x
  | OfTable x => TableElement.type x
  | OfNote x => NoteElement.type x
  | OfColumnStart x => ColumnStartElement.type x
  | OfColumnEnd x => ColumnEndElement.type x
  end.

Definition position_of (e : SlideElement) : option Position.t :=
  match e with
  | OfTitle x => TitleElement.position x
  | OfListItem x => ListItemElement.position x
  | OfParagraph x => ParagraphElement.position x
  | OfImage x => ImageElement.position x
  | OfTable x => TableElement.position x
  | OfNote x => NoteElement.position x
  | OfColumnStart x => ColumnStartElement.position x
  | OfColumnEnd x => ColumnEndElement.position x
  end.

Definition style_of (e : SlideElement) : option TextStyle.t :=
  match e with
  | OfTitle x => TitleElement.style x
  | OfListItem x => ListItemElement.style x
  | OfParagraph x => ParagraphElement.style x
  | OfImage x => ImageElement.style x
  | OfTable x => TableElement.style x
  | OfNote x => NoteElement.style x
  | OfColumnStart x => ColumnStartElement.style x
  | OfColumnEnd x => ColumnEndElement.style x
  end.

(** A call of one of the eight element classes. *)
Inductive element_call : Type :=
| CallTitle (kw : TitleElement.kwargs)
| CallListItem (kw : ListItemElement.kwargs)
| CallParagraph (kw : ParagraphElement.kwargs)
| CallImage (kw : ImageElement.kwargs)
| CallTable (kw : TableElement.kwargs)
| CallNote (kw : NoteElement.kwargs)
| CallColumnStart (kw : ColumnStartElement.kwargs)
| CallColumnEnd (kw : ColumnEndElement.kwargs).

Definition construct (c : element_call) : result SlideElement :=
  match c with
  | CallTitle kw => Ok OfTitle <*> TitleElement.init kw
  | CallListItem kw => Ok OfListItem <*> ListItemElement.init kw
  | CallParagraph kw => Ok OfParagraph <*> ParagraphElement.init kw
  | CallImage kw => Ok OfImage <*> ImageElement.init kw
  | CallTable kw => Ok OfTable <*> TableElement.init kw
  | CallNote kw => Ok OfNote <*> NoteElement.init kw
  | CallColumnStart kw => Ok OfColumnStart <*> ColumnStartElement.init kw
  | CallColumnEnd kw => Ok OfColumnEnd <*> ColumnEndElement.init kw
  end.

Definition called_class (c : element_call) : element_class :=
  match c with
  | CallTitle _ => TitleElement_
  | CallListItem _ => ListItemElement_
  | CallParagraph _ => ParagraphElement_
  | CallImage _ => ImageElement_
  | CallTable _ => TableElement_
  | CallNote _ => NoteElement_
  | CallColumnStart _ => ColumnStartElement_
  | CallColumnEnd _ => ColumnEndElement_
  end.

(** The [type], [position] and [style] keywords of a call. *)
Definition call_type (c : element_call) : option ElementType.t :=
  match c with
  | CallTitle kw => TitleElement.kw_type kw
  | CallListItem kw => ListItemElement.kw_type kw
  | CallParagraph kw => ParagraphElement.kw_type kw
  | CallImage kw => ImageElement.kw_type kw
  | CallTable kw => TableElement.kw_type kw
  | CallNote kw => NoteElement.kw_type kw
  | CallColumnStart kw => ColumnStartElement.kw_type kw
  | CallColumnEnd kw => ColumnEndElement.kw_type kw
  end.

Definition call_position (c : element_call) : option (option Position.t) :=
  match c with
  | CallTitle kw => TitleElement.kw_position kw
  | CallListItem kw => ListItemElement.kw_position kw
  | CallParagraph kw => ParagraphElement.kw_position kw
  | CallImage kw => ImageElement.kw_position kw
  | CallTable kw => TableElement.kw_position kw
  | CallNote kw => NoteElement.kw_position kw
  | CallColumnStart kw => ColumnStartElement.kw_position kw
  | CallColumnEnd kw => ColumnEndElement.kw_position kw
  end.

Definition call_style (c : element_call) : option (option TextStyle.t) :=
  match c with
  | CallTitle kw => TitleElement.kw_style kw
  | CallListItem kw => ListItemElement.kw_style kw
  | CallParagraph kw => ParagraphElement.kw_style kw
  | CallImage kw => ImageElement.kw_style kw
  | CallTable kw => TableElement.kw_style kw
  | CallNote kw => NoteElement.kw_style kw
  | CallColumnStart kw => ColumnStartElement.kw_style kw
  | CallColumnEnd kw => ColumnEndElement.kw_style kw
  end.

(** Whether a call passes every keyword its class declares without
    default. *)
Definition call_complete (c : element_call) : bool :=
  match c with
  | CallTitle kw =>
      bool_decide (is_Some (TitleElement.kw_content kw))
      && bool_decide (is_Some (TitleElement.kw_level kw))
  | CallListItem kw => bool_decide (is_Some (ListItemElement.kw_content kw))
  | CallParagraph kw => bool_decide (is_Some (ParagraphElement.kw_content kw))
  | CallImage kw => bool_decide (is_Some (ImageElement.kw_path kw))
  | CallTable kw => bool_decide (is_Some (TableElement.kw_content kw))
  | CallNote kw => bool_decide (is_Some (NoteElement.kw_content kw))
  | CallColumnStart kw => bool_decide (is_Some (ColumnStartElement.kw_width kw))
  | CallColumnEnd _ => true
  end.

(** A call of class [cls] with the given [position] and [style] keywords
    and plain values for the keywords the class requires. *)
Definition sample_call (cls : element_class)
    (pos : option (option Position.t)) (sty : option (option TextStyle.t)) :
    element_call :=
  match cls with
  | TitleElement_ => CallTitle (TitleElement.Kwargs None pos sty (Some "Agenda") (Some 1))
  | ListItemElement_ => CallListItem (ListItemElement.Kwargs None pos sty (Some []) None)
  | ParagraphElement_ => CallParagraph (ParagraphElement.Kwargs None pos sty (Some []))
  | ImageElement_ => CallImage (ImageElement.Kwargs None pos sty (Some "img/a.png") None None None)
  | TableElement_ => CallTable (TableElement.Kwargs None pos sty (Some []))
  | NoteElement_ => CallNote (NoteElement.Kwargs None pos sty (Some []))
  | ColumnStartElement_ => CallColumnStart (ColumnStartElement.Kwargs None pos sty (Some "50%"))
  | ColumnEndElement_ => CallColumnEnd (ColumnEndElement.Kwargs None pos sty)
  end.

(** ** Slide and ParsedPresentation *)

Module Slide.

Record t : Type := mk {
  elements : list SlideElement;
  notes : list string
}.

Record kwargs : Type := Kwargs {
  kw_elements : option (list SlideElement);
  kw_notes : option (list string)
}.

Definition init (kw : kwargs) : result t :=
  Ok mk
    <*> required "elements" (kw_elements kw)
    <*> required "notes" (kw_notes kw).

End Slide.

Module ParsedPresentation.

Record t : Type := mk {
  slides : list Slide.t
}.

Record kwargs : Type := Kwargs {
  kw_slides : option (list Slide.t)
}.

Definition init (kw : kwargs) : result t :=
  Ok mk <*> required "slides" (kw_slides kw).

End ParsedPresentation.

(** ** Conditions on the document model

    The conditions the description of the model states for its values;
    none of them is part of a class declaration. *)

(** Column markers are recognised by their class. *)
Definition is_column_start (e : SlideElement) : bool :=
  match e with
  | OfColumnStart _ => true
  | _ => false
  end.

Definition is_column_end (e : SlideElement) : bool :=
  match e with
  | OfColumnEnd _ => true
  | _ => false
  end.

Definition column_delta (e : SlideElement) : Z :=
  if is_column_start e then 1
  else if is_column_end e then -1
  else 0.

(** Column nesting depth after scanning [es] in order, starting at [d]. *)
Definition depth_from (d : Z) (es : list SlideElement) : Z :=
  foldl (fun d e => d + column_delta e) d es.

Definition depth (es : list SlideElement) : Z := depth_from 0 es.

(** After every prefix the depth is 0 or 1. *)
Definition depth_bounded (es : list SlideElement) : Prop :=
  forall p q, es = p ++ q -> depth p = 0 \/ depth p = 1.

(** Every [ColumnStart] is followed, somewhere later, by a [ColumnEnd]. *)
Definition starts_matched (es : list SlideElement) : Prop :=
  forall p e q, es = p ++ e :: q -> is_column_start e = true ->
    exists q1 e' q2, q = q1 ++ e' :: q2 /\ is_column_end e' = true.

(** No [ColumnEnd] is met at depth 0. *)
Definition no_stray_end (es : list SlideElement) : Prop :=
  forall p e q, es = p ++ e :: q -> is_column_end e = true -> depth p <> 0.

Definition columns_well_formed (es : list SlideElement) : Prop :=
  depth_bounded es /\ starts_matched es /\ no_stray_end es.

(** The three conditions for a scan that starts inside ([inside = true])
    or outside a column; an open column must still be closed. *)
Definition well_formed_from (inside : bool) (es : list SlideElement) : Prop :=
  (forall p q, es = p ++ q ->
     Z.b2z inside + depth p = 0 \/ Z.b2z inside + depth p = 1) /\
  (inside = true ->
     exists q1 e' q2, es = q1 ++ e' :: q2 /\ is_column_end e' = true) /\
  starts_matched es /\
  (forall p e q, es = p ++ e :: q -> is_column_end e = true ->
     Z.b2z inside + depth p <> 0).

(** The same condition as one pass over the sequence; [inside] tells
    whether a column is open. *)
Fixpoint scan_columns (inside : bool) (es : list SlideElement) : bool :=
  match es with
  | [] => negb inside
  | e :: es' =>
      if is_column_start e then negb inside && scan_columns true es'
      else if is_column_end e then inside && scan_columns false es'
      else scan_columns inside es'
  end.

Definition columns_balanced (es : list SlideElement) : bool :=
  scan_columns false es.

(** A grid is rectangular when all its rows have the same number of cells. *)
Definition rectangular {A : Type} (g : list (list A)) : Prop :=
  forall r1 r2, r1 ∈ g -> r2 ∈ g -> length r1 = length r2.

Definition is_rectangular {A : Type} (g : list (list A)) : bool :=
  match g with
  | [] => true
  | r :: rs => forallb (fun r' => Nat.eqb (length r') (length r)) rs
  end.

(** The text runs an element carries: the rich text of a list item, a
    paragraph or a note, and the rich text of every cell of a table. *)
Definition runs_of (e : SlideElement) : list TextRun.t :=
  match e with
  | OfListItem x => ListItemElement.content x
  | OfParagraph x => ParagraphElement.content x
  | OfNote x => NoteElement.content x
  | OfTable x => concat (concat (TableElement.content x))
  | OfTitle _ | OfImage _ | OfColumnStart _ | OfColumnEnd _ => []
  end.

(** The runs passed in the [content] keyword of a call. *)
Definition call_runs (c : element_call) : list TextRun.t :=
  match c with
  | CallListItem kw => default [] (ListItemElement.kw_content kw)
  | CallParagraph kw => default [] (ParagraphElement.kw_content kw)
  | CallNote kw => default [] (NoteElement.kw_content kw)
  | CallTable kw => concat (concat (default [] (TableElement.kw_content kw)))
  | CallTitle _ | CallImage _ | CallColumnStart _ | CallColumnEnd _ => []
  end.

Definition nonempty_text (r : TextRun.t) : bool :=
  negb (String.eqb (TextRun.text r) EmptyString).

(** ** Objects and references

    A model instance, a list and a dict are objects with identity: a
    name, a field or a list item holds a reference to the object, and two
    holders of one object hold the same reference.  The store is the
    sequence of objects allocated so far and a reference is a position in
    it.  Strings, integers, floats, booleans, paths, enum members and
    [None] are immutable and are held by value.  An instance is given by
    its class and its attributes; the record pydantic keeps beside them of
    which fields were set explicitly is not represented. *)

Module Objects.

Inductive model_class : Type :=
| ClsConversionConfig
| ClsTextStyle
| ClsTextRun
| ClsPosition
| ClsBaseElement
| ClsElement (c : element_class)
| ClsSlide
| ClsParsedPresentation.

(** The fields each class declares, inherited ones first. *)
Definition base_fields : list string := ["type"; "position"; "style"].

Definition own_fields (c : element_class) : list string :=
  match c with
  | TitleElement_ => ["content"; "level"]
  | ListItemElement_ => ["content"; "level"]
  | ParagraphElement_ => ["content"]
  | ImageElement_ => ["path"; "width"; "original_ext"; "alt_text"]
  | TableElement_ => ["content"]
  | NoteElement_ => ["content"]
  | ColumnStartElement_ => ["width"]
  | ColumnEndElement_ => []
  end.

Definition model_fields (c : model_class) : list string :=
  match c with
  | ClsConversionConfig =>
      ["pptx_path"; "output_path"; "image_dir"; "title_path"; "image_width";
       "disable_image"; "disable_wmf"; "disable_color"; "disable_escaping";
       "disable_notes"; "enable_slides"; "is_wiki"; "is_mdk"; "is_qmd";
       "min_block_size"; "page"; "custom_titles"]
  | ClsTextStyle => ["is_accent"; "is_strong"; "color_rgb"; "hyperlink"]
  | ClsTextRun => ["text"; "style"]
  | ClsPosition => ["left"; "top"; "width"; "height"]
  | ClsBaseElement => base_fields
  | ClsElement c => base_fields ++ own_fields c
  | ClsSlide => ["elements"; "notes"]
  | ClsParsedPresentation => ["slides"]
  end.

Inductive val : Type :=
| VNone
| VBool (b : bool)
| VInt (n : Z)
| VFloat (x : PrimFloat.float)
| VStr (s : string)
| VPath (p : Path)
| VTag (t : ElementType.t)
| VRef (r : nat).

Inductive obj : Type :=
| Instance (c : model_class) (attrs : gmap string val)
| PyList (items : list val)
| PyDict (entries : gmap string val).

(** *** Reading *)

(** [r.f] on a model instance; [None] is the exception raised when [r] is
    not an instance or has no attribute [f]. *)
Definition getattr (h : list obj) (r : nat) (f : string) : option val :=
  match h !! r with
  | Some (Instance _ attrs) => attrs !! f
  | _ => None
  end.

(** The items of list [l], and [l[i]]. *)
Definition list_items (h : list obj) (l : nat) : option (list val) :=
  match h !! l with
  | Some (PyList items) => Some items
  | _ => None
  end.

Definition list_getitem (h : list obj) (l i : nat) : option val :=
  match list_items h l with
  | Some items => items !! i
  | None => None
  end.

(** The entries of dict [d], and [d[k]]. *)
Definition dict_entries (h : list obj) (d : nat) : option (gmap string val) :=
  match h !! d with
  | Some (PyDict entries) => Some entries
  | _ => None
  end.

Definition dict_getitem (h : list obj) (d : nat) (k : string) : option val :=
  match dict_entries h d with
  | Some entries => entries !! k
  | None => None
  end.

(** *** Mutation *)

(** [r.f = v]: pydantic refuses a name that is not a field of the class
    and, without [validate_assignment], stores any value in a field. *)
Definition setattr (h : list obj) (r : nat) (f : string) (v : val) :
    option (list obj) :=
  match h !! r with
  | Some (Instance c attrs) =>
      if bool_decide (f ∈ model_fields c)
      then Some (<[r := Instance c (<[f := v]> attrs)]> h)
      else None
  | _ => None
  end.

(** [l[i] = v] for an index counted from the front; an index past the end
    raises [IndexError]. *)
Definition list_setitem (h : list obj) (l i : nat) (v : val) : option (list obj) :=
  match h !! l with
  | Some (PyList items) =>
      if bool_decide (i < length items)%nat
      then Some (<[l := PyList (<[i := v]> items)]> h)
      else None
  | _ => None
  end.

(** [l.append(v)] *)
Definition list_append (h : list obj) (l : nat) (v : val) : option (list obj) :=
  match h !! l with
  | Some (PyList items) => Some (<[l := PyList (items ++ [v])]> h)
  | _ => None
  end.

(** [d[k] = v] *)
Definition dict_setitem (h : list obj) (d : nat) (k : string) (v : val) :
    option (list obj) :=
  match h !! d with
  | Some (PyDict entries) => Some (<[d := PyDict (<[k := v]> entries)]> h)
  | _ => None
  end.

(** *** Consumers *)

(** What a consumer does with the objects it was handed. *)
Inductive op : Type :=
| GetAttr (r : nat) (f : string)
| GetItem (l i : nat)
| DictGet (d : nat) (k : string)
| SetAttr (r : nat) (f : string) (v : val)
| SetItem (l i : nat) (v : val)
| Append (l : nat) (v : val)
| DictSet (d : nat) (k : string) (v : val).

Definition reads_only (o : op) : bool :=
  match o with
  | GetAttr _ _ | GetItem _ _ | DictGet _ _ => true
  | SetAttr _ _ _ | SetItem _ _ _ | Append _ _ | DictSet _ _ _ => false
  end.

(** The store after one operation; [None] when it raises. *)
Definition step (h : list obj) (o : op) : option (list obj) :=
  match o with
  | GetAttr r f => match getattr h r f with Some _ => Some h | None => None end
  | GetItem l i => match list_getitem h l i with Some _ => Some h | None => None end
  | DictGet d k => match dict_getitem h d k with Some _ => Some h | None => None end
  | SetAttr r f v => setattr h r f v
  | SetItem l i v => list_setitem h l i v
  | Append l v => list_append h l v
  | DictSet d k v => dict_setitem h d k v
  end.

Fixpoint run (ops : list op) (h : list obj) : option (list obj) :=
  match ops with
  | [] => Some h
  | o :: ops' =>
      match step h o with
      | Some h' => run ops' h'
      | None => None
      end
  end.

(** *** The objects of a constructed value

    A value constructed from scratch: every instance, list and dict in it
    is allocated as an object of its own, the parts before the whole, and
    no object is shared between two fields. *)

Definition alloc (o : obj) (h : list obj) : nat * list obj :=
  (length h, h ++ [o]).

(** A new instance of class [c] with the given attributes. *)
Definition new (c : model_class) (attrs : list (string * val)) (h : list obj) :
    val * list obj :=
  let '(r, h') := alloc (Instance c (list_to_map attrs)) h in (VRef r, h').

Definition new_list (items : list val) (h : list obj) : val * list obj :=
  let '(l, h') := alloc (PyList items) h in (VRef l, h').

(** Stores the values of [xs] one after the other. *)
Fixpoint store_all {A : Type} (store : A -> list obj -> val * list obj)
    (xs : list A) (h : list obj) : list val * list obj :=
  match xs with
  | [] => ([], h)
  | x :: xs' =>
      let '(v, h1) := store x h in
      let '(vs, h2) := store_all store xs' h1 in
      (v :: vs, h2)
  end.

Definition store_list {A : Type} (store : A -> list obj -> val * list obj)
    (xs : list A) (h : list obj) : val * list obj :=
  let '(vs, h1) := store_all store xs h in new_list vs h1.

Definition store_opt {A : Type} (store : A -> list obj -> val * list obj)
    (x : option A) (h : list obj) : val * list obj :=
  match x with
  | Some a => store a h
  | None => (VNone, h)
  end.

Definition opt_val {A : Type} (f : A -> val) (x : option A) : val :=
  match x with
  | Some a => f a
  | None => VNone
  end.

Definition store_str (s : string) (h : list obj) : val * list obj := (VStr s, h).

Definition store_style (s : TextStyle.t) (h : list obj) : val * list obj :=
  new ClsTextStyle
    [("is_accent", VBool (TextStyle.is_accent s));
     ("is_strong", VBool (TextStyle.is_strong s));
     ("color_rgb", opt_val VStr (TextStyle.color_rgb s));
     ("hyperlink", opt_val VStr (TextStyle.hyperlink s))] h.

Definition store_position (p : Position.t) (h : list obj) : val * list obj :=
  new ClsPosition
    [("left", VFloat (Position.left p)); ("top", VFloat (Position.top p));
     ("width", VFloat (Position.width p)); ("height", VFloat (Position.height p))] h.

Definition store_run (r : TextRun.t) (h : list obj) : val * list obj :=
  let '(s, h1) := store_style (TextRun.style r) h in
  new ClsTextRun [("text", VStr (TextRun.text r)); ("style", s)] h1.

(** An element: its position and style first, then its content, then the
    instance. *)
Definition store_element (e : SlideElement) (h : list obj) : val * list obj :=
  let '(p, h1) := store_opt store_position (position_of e) h in
  let '(s, h2) := store_opt store_style (style_of e) h1 in
  let base := [("type", VTag (type_of e)); ("position", p); ("style", s)] in
  match e with
  | OfTitle x =>
      new (ClsElement TitleElement_)
        (base ++ [("content", VStr (TitleElement.content x));
                  ("level", VInt (TitleElement.level x))]) h2
  | OfListItem x =>
      let '(c, h3) := store_list store_run (ListItemElement.content x) h2 in
      new (ClsElement ListItemElement_)
        (base ++ [("content", c); ("level", VInt (ListItemElement.level x))]) h3
  | OfParagraph x =>
      let '(c, h3) := store_list store_run (ParagraphElement.content x) h2 in
      new (ClsElement ParagraphElement_) (base ++ [("content", c)]) h3
  | OfImage x =>
      new (ClsElement ImageElement_)
        (base ++ [("path", VStr (ImageElement.path x));
                  ("width", opt_val VInt (ImageElement.width x));
                  ("original_ext", VStr (ImageElement.original_ext x));
                  ("alt_text", VStr (ImageElement.alt_text x))]) h2
  | OfTable x =>
      let '(c, h3) :=
        store_list (store_list (store_list store_run)) (TableElement.content x) h2 in
      new (ClsElement TableElement_) (base ++ [("content", c)]) h3
  | OfNote x =>
      let '(c, h3) := store_list store_run (NoteElement.content x) h2 in
      new (ClsElement NoteElement_) (base ++ [("content", c)]) h3
  | OfColumnStart x =>
      new (ClsElement ColumnStartElement_)
        (base ++ [("width", VStr (ColumnStartElement.width x))]) h2
  | OfColumnEnd _ => new (ClsElement ColumnEndElement_) base h2
  end.

Definition store_slide (s : Slide.t) (h : list obj) : val * list obj :=
  let '(es, h1) := store_list store_element (Slide.elements s) h in
  let '(ns, h2) := store_list store_str (Slide.notes s) h1 in
  new ClsSlide [("elements", es); ("notes", ns)] h2.

Definition store_presentation (p : ParsedPresentation.t) (h : list obj) :
    val * list obj :=
  let '(ss, h1) := store_list store_slide (ParsedPresentation.slides p) h in
  new ClsParsedPresentation [("slides", ss)] h1.

(** The attributes of a configuration whose [custom_titles] dict is the
    object [d]. *)
Definition config_attrs (c : ConversionConfig.t) (d : nat) : list (string * val) :=
  [("pptx_path", VPath (ConversionConfig.pptx_path c));
   ("output_path", VPath (ConversionConfig.output_path c));
   ("image_dir", opt_val VPath (ConversionConfig.image_dir c));
   ("title_path", opt_val VPath (ConversionConfig.title_path c));
   ("image_width", opt_val VInt (ConversionConfig.image_width c));
   ("disable_image", VBool (ConversionConfig.disable_image c));
   ("disable_wmf", VBool (ConversionConfig.disable_wmf c));
   ("disable_color", VBool (ConversionConfig.disable_color c));
   ("disable_escaping", VBool (ConversionConfig.disable_escaping c));
   ("disable_notes", VBool (ConversionConfig.disable_notes c));
   ("enable_slides", VBool (ConversionConfig.enable_slides c));
   ("is_wiki", VBool (ConversionConfig.is_wiki c));
   ("is_mdk", VBool (ConversionConfig.is_mdk c));
   ("is_qmd", VBool (ConversionConfig.is_qmd c));
   ("min_block_size", VInt (ConversionConfig.min_block_size c));
   ("page", opt_val VInt (ConversionConfig.page c));
   ("custom_titles", VRef d)].

(** The dict of [custom_titles] is an object of its own. *)
Definition store_config (c : ConversionConfig.t) (h : list obj) : val * list obj :=
  let '(d, h1) := alloc (PyDict (VInt <$> ConversionConfig.custom_titles c)) h in
  new ClsConversionConfig (config_attrs c d) h1.

(** *** Where a constructed value lives

    [v] refers to the instance of a configuration, a slide or a
    presentation in store [h], and the instance's dict and lists are
    objects of their own. *)
Definition holds_config (c : ConversionConfig.t) (v : val) (h : list obj) : Prop :=
  exists r d,
    v = VRef r /\
    h !! r = Some (Instance ClsConversionConfig (list_to_map (config_attrs c d))) /\
    h !! d = Some (PyDict (VInt <$> ConversionConfig.custom_titles c)).

Definition holds_slide (s : Slide.t) (v : val) (h : list obj) : Prop :=
  exists r es ns items,
    v = VRef r /\
    h !! r = Some (Instance ClsSlide
                     (list_to_map [("elements", VRef es); ("notes", VRef ns)])) /\
    h !! es = Some (PyList items) /\
    length items = length (Slide.elements s) /\
    h !! ns = Some (PyList (VStr <$> Slide.notes s)).

Definition holds_presentation (p : ParsedPresentation.t) (v : val) (h : list obj) :
    Prop :=
  exists r l refs,
    v = VRef r /\
    h !! r = Some (Instance ClsParsedPresentation (list_to_map [("slides", VRef l)])) /\
    h !! l = Some (PyList refs) /\
    Forall2 (fun s v' => holds_slide s v' h) (ParsedPresentation.slides p) refs.

End Objects.

(** ** Lookups and explicit calls *)

(** [ElementType(s)]: the member whose value is [s]; [None] stands for the
    [ValueError] raised when no member has that value. *)
Definition element_type_of_value (s : string) : option ElementType.t :=
  List.find (fun t => String.eqb (ElementType.value t) s) ElementType.members.

(** The name of a keyword that a call leaves out. *)
Definition omitted {A : Type} (name : string) (arg : option A) : list string :=
  match arg with
  | Some _ => []
  | None => [name]
  end.

(** The keywords without default that an element call leaves out, in
    field order. *)
Definition call_missing (c : element_call) : list string :=
  match c with
  | CallTitle kw =>
      omitted "content" (TitleElement.kw_content kw)
      ++ omitted "level" (TitleElement.kw_level kw)
  | CallListItem kw => omitted "content" (ListItemElement.kw_content kw)
  | CallParagraph kw => omitted "content" (ParagraphElement.kw_content kw)
  | CallImage kw => omitted "path" (ImageElement.kw_path kw)
  | CallTable kw => omitted "content" (TableElement.kw_content kw)
  | CallNote kw => omitted "content" (NoteElement.kw_content kw)
  | CallColumnStart kw => omitted "width" (ColumnStartElement.kw_width kw)
  | CallColumnEnd _ => []
  end.

(** The call that passes every field of an existing configuration as a
    keyword. *)
Definition config_kwargs_of (c : ConversionConfig.t) : ConversionConfig.kwargs :=
  ConversionConfig.Kwargs
    (Some (ConversionConfig.pptx_path c)) (Some (ConversionConfig.output_path c))
    (Some (ConversionConfig.image_dir c)) (Some (ConversionConfig.title_path c))
    (Some (ConversionConfig.image_width c)) (Some (ConversionConfig.disable_image c))
    (Some (ConversionConfig.disable_wmf c)) (Some (ConversionConfig.disable_color c))
    (Some (ConversionConfig.disable_escaping c)) (Some (ConversionConfig.disable_notes c))
    (Some (ConversionConfig.enable_slides c)) (Some (ConversionConfig.is_wiki c))
    (Some (ConversionConfig.is_mdk c)) (Some (ConversionConfig.is_qmd c))
    (Some (ConversionConfig.min_block_size c)) (Some (ConversionConfig.page c))
    (Some (ConversionConfig.custom_titles c)).

(** The call of an element's class that passes every field of the element
    as a keyword. *)
Definition element_call_of (e : SlideElement) : element_call :=
  match e with
  | OfTitle x =>
      CallTitle (TitleElement.Kwargs (Some (TitleElement.type x))
        (Some (TitleElement.position x)) (Some (TitleElement.style x))
        (Some (TitleElement.content x)) (Some (TitleElement.level x)))
  | OfListItem x =>
      CallListItem (ListItemElement.Kwargs (Some (ListItemElement.type x))
        (Some (ListItemElement.position x)) (Some (ListItemElement.style x))
        (Some (ListItemElement.content x)) (Some (ListItemElement.level x)))
  | OfParagraph x =>
      CallParagraph (ParagraphElement.Kwargs (Some (ParagraphElement.type x))
        (Some (ParagraphElement.position x)) (Some (ParagraphElement.style x))
        (Some (ParagraphElement.content x)))
  | OfImage x =>
      CallImage (ImageElement.Kwargs (Some (ImageElement.type x))
        (Some (ImageElement.position x)) (Some (ImageElement.style x))
        (Some (ImageElement.path x)) (Some (ImageElement.width x))
        (Some (ImageElement.original_ext x)) (Some (ImageElement.alt_text x)))
  | OfTable x =>
      CallTable (TableElement.Kwargs (Some (TableElement.type x))
        (Some (TableElement.position x)) (Some (TableElement.style x))
        (Some (TableElement.content x)))
  | OfNote x =>
      CallNote (NoteElement.Kwargs (Some (NoteElement.type x))
        (Some (NoteElement.position x)) (Some (NoteElement.style x))
        (Some (NoteElement.content x)))
  | OfColumnStart x =>
      CallColumnStart (ColumnStartElement.Kwargs (Some (ColumnStartElement.type x))
        (Some (ColumnStartElement.position x)) (Some (ColumnStartElement.style x))
        (Some (ColumnStartElement.width x)))
  | OfColumnEnd x =>
      CallColumnEnd (ColumnEndElement.Kwargs (Some (ColumnEndElement.type x))
        (Some (ColumnEndElement.position x)) (Some (ColumnEndElement.style x)))
  end.

(** * Properties *)

(** ** ConversionConfig *)

Section Config.

Import ConversionConfig.

Lemma init_is_ok (kw : kwargs) :
  is_ok (init kw) =
  bool_decide (is_Some (kw_pptx_path kw)) && bool_decide (is_Some (kw_output_path kw))
  && bool_decide (is_Some (kw_image_dir kw)) && bool_decide (is_Some (kw_title_path kw)).
Proof.
  destruct kw as [p o i t ? ? ? ? ? ? ? ? ? ? ? ? ?]; simpl.
  destruct p, o, i, t; reflexivity.
Qed.

Lemma init_ok_fields (kw : kwargs) (c : t) :
  init kw = Ok c ->
  c = mk (default (mkPath EmptyString) (kw_pptx_path kw))
         (default (mkPath EmptyString) (kw_output_path kw))
         (default None (kw_image_dir kw))
         (default None (kw_title_path kw))
         (default None (kw_image_width kw))
         (default false (kw_disable_image kw))
         (default false (kw_disable_wmf kw))
         (default false (kw_disable_color kw))
         (default false (kw_disable_escaping kw))
         (default false (kw_disable_notes kw))
         (default false (kw_enable_slides kw))
         (default false (kw_is_wiki kw))
         (default false (kw_is_mdk kw))
         (default false (kw_is_qmd kw))
         (default 15 (kw_min_block_size kw))
         (default None (kw_page kw))
         (default ∅ (kw_custom_titles kw)).
Proof.
  destruct kw as [p o i t ? ? ? ? ? ? ? ? ? ? ? ? ?]; simpl.
  destruct p, o, i, t; simpl; intros H; try discriminate.
  injection H as <-. reflexivity.
Qed.


(** C9: a configuration constructed from the four required keywords alone
    has every boolean toggle false, [min_block_size] 15, [image_width] and
    [page] [None], and [custom_titles] empty. *)
Theorem config_defaults (pptx out : Path) (img title : option Path) :
  exists c, init (only_required pptx out img title) = Ok c /\
    pptx_path c = pptx /\ output_path c = out /\
    image_dir c = img /\ title_path c = title /\
    disable_image c = false /\ disable_wmf c = false /\
    disable_color c = false /\ disable_escaping c = false /\
    disable_notes c = false /\ enable_slides c = false /\
    is_wiki c = false /\ is_mdk c = false /\ is_qmd c = false /\
    min_block_size c = 15 /\
    image_width c = None /\ page c = None /\
    custom_titles c = ∅.
Proof.
  eexists. split; [reflexivity|]. simpl. repeat split.
Qed.

(** C10: construction succeeds exactly when [pptx_path], [output_path],
    [image_dir] and [title_path] are all supplied ([image_dir] and
    [title_path] possibly as [None]); otherwise it fails with a validation
    error naming the omitted ones.  No other keyword is needed. *)
Theorem config_required_fields (kw : kwargs) :
  (is_ok (init kw) = true <->
     is_Some (kw_pptx_path kw) /\ is_Some (kw_output_path kw) /\
     is_Some (kw_image_dir kw) /\ is_Some (kw_title_path kw)) /\
  errors (init kw) =
    match kw_pptx_path kw with Some _ => [] | None => ["pptx_path"] end ++
    match kw_output_path kw with Some _ => [] | None => ["output_path"] end ++
    match kw_image_dir kw with Some _ => [] | None => ["image_dir"] end ++
    match kw_title_path kw with Some _ => [] | None => ["title_path"] end.
Proof.
  split.
  - rewrite init_is_ok, !andb_true_iff, !bool_decide_eq_true. tauto.
  - destruct kw as [p o i t ? ? ? ? ? ? ? ? ? ? ? ? ?]; simpl.
    destruct p, o, i, t; reflexivity.
Qed.

Lemma config_required_fields_witness :
  errors (init no_kwargs) = ["pptx_path"; "output_path"; "image_dir"; "title_path"] /\
  is_ok (init (only_required (mkPath "deck.pptx") (mkPath "out.md") None None)) = true.
Proof.
  split.
  - exact (proj2 (config_required_fields no_kwargs)).
  - apply (proj1 (config_required_fields _)). simpl. repeat split; eexists; reflexivity.
Defined.

(** C2, as the code has it: the constructor validates no combination of
    toggles.  A constructed configuration holds [is_wiki], [is_mdk],
    [is_qmd] and [enable_slides] as supplied ([false] when omitted), so at
    most one selector is set in it exactly when at most one was supplied as
    true; and the same call with any other values for these four keywords
    succeeds as well. *)
Theorem config_selectors_as_supplied (kw : kwargs) (c : t) :
  init kw = Ok c ->
  is_wiki c = default false (kw_is_wiki kw) /\
  is_mdk c = default false (kw_is_mdk kw) /\
  is_qmd c = default false (kw_is_qmd kw) /\
  enable_slides c = default false (kw_enable_slides kw) /\
  ((length (selectors c) <= 1)%nat <-> (length (selectors_given kw) <= 1)%nat) /\
  forall wiki mdk qmd slides,
    is_ok (init (with_toggles kw wiki mdk qmd slides)) = true.
Proof.
  intros Hc.
  assert (Hok : is_ok (init kw) = true) by (rewrite Hc; reflexivity).
  apply init_ok_fields in Hc. subst c.
  unfold selectors, selectors_given. simpl.
  repeat split; try tauto.
  intros. rewrite init_is_ok in *. exact Hok.
Qed.

Lemma config_selectors_as_supplied_witness :
  let kw := with_toggles
              (only_required (mkPath "deck.pptx") (mkPath "out.md") None None)
              (Some true) None None (Some true) in
  exists c, init kw = Ok c /\ is_wiki c = true /\ is_mdk c = false /\
    is_qmd c = false /\ enable_slides c = true /\
    is_ok (init (with_toggles kw (Some true) (Some true) (Some true) None)) = true.
Proof.
  intros kw. eexists. split; [reflexivity|].
  match goal with
  | |- context [is_wiki ?c] =>
      destruct (config_selectors_as_supplied kw c eq_refl)
        as (Hw & Hm & Hq & Hs & _ & Hany)
  end.
  split; [exact Hw|]. split; [exact Hm|]. split; [exact Hq|].
  split; [exact Hs|]. apply Hany.
Defined.

(** C2 fails as stated: a call with [is_wiki] and [is_mdk] both true
    returns a configuration with both set. *)
Lemma config_two_selectors_accepted :
  let kw := with_toggles
              (only_required (mkPath "deck.pptx") (mkPath "out.md") None None)
              (Some true) (Some true) None None in
  exists c, init kw = Ok c /\ is_wiki c = true /\ is_mdk c = true.
Proof.
  intros kw. eexists. repeat split.
Qed.

End Config.

(** ** Slide elements *)

Ltac unfold_init :=
  unfold construct, TitleElement.init, ListItemElement.init,
    ParagraphElement.init, ImageElement.init, TableElement.init,
    NoteElement.init, ColumnStartElement.init, ColumnEndElement.init;
  simpl.

Ltac case_required :=
  unfold_init;
  repeat match goal with
         | |- context [required _ ?arg] => destruct arg; simpl
         end.

Lemma construct_is_ok (c : element_call) :
  is_ok (construct c) = call_complete c.
Proof.
  destruct c as [kw|kw|kw|kw|kw|kw|kw|kw]; destruct kw; simpl;
    case_required; reflexivity.
Qed.

(** What a successful call stores in the fields inherited from
    [BaseElement], and which class the instance has. *)
Lemma construct_ok_base (c : element_call) (e : SlideElement) :
  construct c = Ok e ->
  class_of e = called_class c /\
  type_of e = default (default_type (called_class c)) (call_type c) /\
  position_of e = default None (call_position c) /\
  style_of e = default None (call_style c).
Proof.
  destruct c as [kw|kw|kw|kw|kw|kw|kw|kw]; destruct kw; simpl;
    case_required; intros H; try discriminate;
    injection H as <-; repeat split.
Qed.

Lemma construct_ok_runs (c : element_call) (e : SlideElement) :
  construct c = Ok e -> runs_of e = call_runs c.
Proof.
  destruct c as [kw|kw|kw|kw|kw|kw|kw|kw]; destruct kw; simpl;
    case_required; intros H; try discriminate;
    injection H as <-; reflexivity.
Qed.

(** Every value of the union is the result of a call of its class. *)
Lemma every_element_constructed (e : SlideElement) :
  exists c, construct c = Ok e /\ called_class c = class_of e.
Proof.
  destruct e as [x|x|x|x|x|x|x|x]; destruct x.
  - eexists (CallTitle (TitleElement.Kwargs (Some _) (Some _) (Some _) (Some _) (Some _))).
    split; reflexivity.
  - eexists (CallListItem (ListItemElement.Kwargs (Some _) (Some _) (Some _) (Some _) (Some _))).
    split; reflexivity.
  - eexists (CallParagraph (ParagraphElement.Kwargs (Some _) (Some _) (Some _) (Some _))).
    split; reflexivity.
  - eexists (CallImage (ImageElement.Kwargs (Some _) (Some _) (Some _) (Some _)
                          (Some _) (Some _) (Some _))).
    split; reflexivity.
  - eexists (CallTable (TableElement.Kwargs (Some _) (Some _) (Some _) (Some _))).
    split; reflexivity.
  - eexists (CallNote (NoteElement.Kwargs (Some _) (Some _) (Some _) (Some _))).
    split; reflexivity.
  - eexists (CallColumnStart (ColumnStartElement.Kwargs (Some _) (Some _) (Some _) (Some _))).
    split; reflexivity.
  - eexists (CallColumnEnd (ColumnEndElement.Kwargs (Some _) (Some _) (Some _))).
    split; reflexivity.
Qed.

Lemma value_inj (t1 t2 : ElementType.t) :
  ElementType.value t1 = ElementType.value t2 -> t1 = t2.
Proof. destruct t1, t2; simpl; intros H; (reflexivity || discriminate H). Qed.

Lemma default_type_inj (c1 c2 : element_class) :
  default_type c1 = default_type c2 -> c1 = c2.
Proof. destruct c1, c2; simpl; intros H; (reflexivity || discriminate H). Qed.

Lemma default_type_surj (t : ElementType.t) :
  exists c, default_type c = t.
Proof.
  destruct t;
    [ exists TitleElement_ | exists ListItemElement_ | exists ParagraphElement_
    | exists ImageElement_ | exists TableElement_ | exists NoteElement_
    | exists ColumnStartElement_ | exists ColumnEndElement_ ]; reflexivity.
Qed.

(** C1, as the code has it: [type] is an ordinary field with a per-class
    default.  An element constructed without the [type] keyword carries the
    tag its class declares, and one constructed with it carries the tag
    supplied.  [ElementType] has exactly eight members with pairwise
    distinct values, and each member is the declared tag of exactly one of
    the eight classes of the union. *)
Theorem element_type_tag (c : element_call) (e : SlideElement) :
  construct c = Ok e ->
  type_of e = default (default_type (class_of e)) (call_type c) /\
  (call_type c = None -> type_of e = default_type (class_of e)) /\
  (forall t : ElementType.t, t ∈ ElementType.members) /\
  length ElementType.members = 8%nat /\
  NoDup (ElementType.value <$> ElementType.members) /\
  (forall t, exists cls,
      default_type cls = t /\ forall cls', default_type cls' = t -> cls' = cls).
Proof.
  intros H. destruct (construct_ok_base c e H) as (Hc & Ht & _ & _).
  rewrite Hc. split; [exact Ht|]. split.
  { intros Hn. rewrite Ht, Hn. reflexivity. }
  split.
  { intros t. apply (bool_decide_unpack _). destruct t; vm_compute; exact I. }
  split; [reflexivity|]. split.
  { apply NoDup_fmap_2; [intros t1 t2; apply value_inj|].
    apply (bool_decide_unpack _). vm_compute. exact I. }
  intros t. destruct (default_type_surj t) as [cls Hcls].
  exists cls. split; [exact Hcls|].
  intros cls' H'. apply default_type_inj. congruence.
Qed.

Lemma element_type_tag_witness :
  let c := CallTitle (TitleElement.Kwargs None None None (Some "Intro") (Some 1)) in
  exists e, construct c = Ok e /\ type_of e = ElementType.TITLE.
Proof.
  intros c. eexists. split; [reflexivity|].
  match goal with
  | |- type_of ?e = _ =>
      destruct (element_type_tag c e eq_refl) as (_ & Hd & _)
  end.
  apply Hd. reflexivity.
Defined.

(** C1 fails as stated: a [TitleElement] constructed with
    [type=ElementType.IMAGE] is a member of the union whose tag is not the
    one of its class. *)
Lemma title_with_image_tag :
  let c := CallTitle (TitleElement.Kwargs (Some ElementType.IMAGE) None None
                        (Some "Intro") (Some 1)) in
  exists e, construct c = Ok e /\ class_of e = TitleElement_ /\
    type_of e <> default_type (class_of e).
Proof.
  intros c. eexists. split; [reflexivity|]. split; [reflexivity|].
  simpl. discriminate.
Qed.

(** C8: every element class carries [position] and [style]: a constructed
    element holds for each the value supplied, and [None] when the keyword
    is omitted; and each of the eight classes can be constructed with the
    two keywords omitted, given as [None], or given a value. *)
Theorem element_position_style_optional (c : element_call) (e : SlideElement) :
  construct c = Ok e ->
  position_of e = default None (call_position c) /\
  style_of e = default None (call_style c) /\
  (call_position c = None -> position_of e = None) /\
  (call_style c = None -> style_of e = None) /\
  (forall cls pos sty, exists e',
      construct (sample_call cls pos sty) = Ok e' /\ class_of e' = cls /\
      position_of e' = default None pos /\ style_of e' = default None sty).
Proof.
  intros H. destruct (construct_ok_base c e H) as (_ & _ & Hp & Hs).
  split; [exact Hp|]. split; [exact Hs|].
  split; [intros Hn; rewrite Hp, Hn; reflexivity|].
  split; [intros Hn; rewrite Hs, Hn; reflexivity|].
  intros cls pos sty. destruct cls; simpl; eexists; (split; [reflexivity|]);
    repeat split.
Qed.

Lemma element_position_style_optional_witness :
  let c := CallImage (ImageElement.Kwargs None None None (Some "img/a.png")
                        (Some (Some 640)) None None) in
  exists e, construct c = Ok e /\ position_of e = None /\ style_of e = None.
Proof.
  intros c. eexists. split; [reflexivity|].
  match goal with
  | |- position_of ?e = _ /\ _ =>
      destruct (element_position_style_optional c e eq_refl)
        as (_ & _ & Hp & Hs & _)
  end.
  split; [apply Hp | apply Hs]; reflexivity.
Defined.

(** C4, as the code has it: [level] is an unconstrained integer.  A
    [TitleElement] holds the level supplied, a [ListItemElement] the level
    supplied or 1 when the keyword is omitted, and both constructors accept
    every integer. *)
Theorem level_as_supplied (lvl : Z) :
  (forall kw x, TitleElement.init kw = Ok x ->
     TitleElement.kw_level kw = Some (TitleElement.level x)) /\
  (forall kw x, ListItemElement.init kw = Ok x ->
     ListItemElement.level x = default 1 (ListItemElement.kw_level kw) /\
     (ListItemElement.kw_level kw = None -> 1 <= ListItemElement.level x)) /\
  (forall ty pos sty s, exists x,
     TitleElement.init (TitleElement.Kwargs ty pos sty (Some s) (Some lvl)) = Ok x /\
     TitleElement.level x = lvl) /\
  (forall ty pos sty rs, exists x,
     ListItemElement.init (ListItemElement.Kwargs ty pos sty (Some rs) (Some lvl)) = Ok x /\
     ListItemElement.level x = lvl).
Proof.
  split; [|split; [|split]].
  - intros [ty pos sty s l] x. unfold TitleElement.init. simpl.
    destruct s, l; simpl; intros H; try discriminate.
    injection H as <-. reflexivity.
  - intros [ty pos sty rs l] x. unfold ListItemElement.init. simpl.
    destruct rs; simpl; intros H; try discriminate.
    injection H as <-. simpl. split; [reflexivity|]. intros ->. simpl. lia.
  - intros. eexists. split; reflexivity.
  - intros. eexists. split; reflexivity.
Qed.

Lemma level_as_supplied_witness :
  let kw := ListItemElement.Kwargs None None None (Some []) None in
  exists x, ListItemElement.init kw = Ok x /\ 1 <= ListItemElement.level x.
Proof.
  intros kw. eexists. split; [reflexivity|].
  match goal with
  | |- 1 <= ListItemElement.level ?x =>
      destruct (level_as_supplied 1) as (_ & Hl & _);
      destruct (Hl kw x eq_refl) as (_ & Hd)
  end.
  apply Hd. reflexivity.
Defined.

(** C4 fails as stated: a title of level 0 and a list item of level -2
    are constructed. *)
Lemma level_below_one_accepted :
  (exists x,
     TitleElement.init (TitleElement.Kwargs None None None (Some "Intro") (Some 0)) = Ok x /\
     ~ 1 <= TitleElement.level x) /\
  (exists x,
     ListItemElement.init (ListItemElement.Kwargs None None None (Some []) (Some (-2))) = Ok x /\
     ~ 1 <= ListItemElement.level x).
Proof.
  split; eexists; (split; [reflexivity|]); simpl; lia.
Qed.

(** C5, as the code has it: [text] is an unconstrained string.  A
    [TextRun] holds the text supplied, the constructor accepts every string,
    and an element carries the runs its constructor was given; so the runs
    of an element have non-empty text exactly when the runs supplied do. *)
Theorem run_text_as_supplied (c : element_call) (e : SlideElement) :
  construct c = Ok e ->
  runs_of e = call_runs c /\
  forallb nonempty_text (runs_of e) = forallb nonempty_text (call_runs c) /\
  (forall kw r, TextRun.init kw = Ok r ->
     TextRun.kw_text kw = Some (TextRun.text r)) /\
  (forall s st, TextRun.init (TextRun.Kwargs (Some s) (Some st)) = Ok (TextRun.mk s st)).
Proof.
  intros H. apply construct_ok_runs in H. rewrite H.
  split; [reflexivity|]. split; [reflexivity|]. split.
  - intros [s st] r. unfold TextRun.init. simpl.
    destruct s, st; simpl; intros Hr; try discriminate.
    injection Hr as <-. reflexivity.
  - reflexivity.
Qed.

Lemma run_text_as_supplied_witness :
  let r := TextRun.mk "Overview" (TextStyle.mk false true None None) in
  let c := CallParagraph (ParagraphElement.Kwargs None None None (Some [r])) in
  exists e, construct c = Ok e /\ runs_of e = [r].
Proof.
  intros r c. eexists. split; [reflexivity|].
  match goal with
  | |- runs_of ?e = _ =>
      destruct (run_text_as_supplied c e eq_refl) as (Hr & _)
  end.
  exact Hr.
Defined.

(** C5 fails as stated: a run with empty text is constructed and carried
    by a paragraph. *)
Lemma empty_run_accepted :
  let st := TextStyle.mk false false None None in
  exists r e,
    TextRun.init (TextRun.Kwargs (Some EmptyString) (Some st)) = Ok r /\
    construct (CallParagraph (ParagraphElement.Kwargs None None None (Some [r]))) = Ok e /\
    r ∈ runs_of e /\ TextRun.text r = EmptyString.
Proof.
  intros st. eexists. eexists. split; [reflexivity|]. split; [reflexivity|].
  split; [apply list_elem_of_here | reflexivity].
Qed.

(** ** Tables *)

Lemma is_rectangular_spec {A : Type} (g : list (list A)) :
  is_rectangular g = true <-> rectangular g.
Proof.
  unfold rectangular. destruct g as [|r rs]; simpl.
  - split; [|reflexivity]. intros _ r1 r2 H1. inversion H1.
  - rewrite forallb_forall. split.
    + intros H r1 r2 H1 H2.
      assert (Hr : forall r', r' ∈ r :: rs -> length r' = length r).
      { intros r' Hr'. apply elem_of_cons in Hr' as [-> | Hr']; [reflexivity|].
        apply Nat.eqb_eq, H, list_elem_of_In, Hr'. }
      rewrite (Hr r1 H1), (Hr r2 H2). reflexivity.
    + intros H r' Hr'. apply Nat.eqb_eq, H.
      * apply list_elem_of_further, list_elem_of_In, Hr'.
      * apply list_elem_of_here.
Qed.

(** C6, as the code has it: [content] is an unconstrained list of rows.
    A [TableElement] holds the grid supplied, so its grid is rectangular
    exactly when the grid supplied has rows of equal length; the
    constructor accepts every grid. *)
Theorem table_content_as_supplied (kw : TableElement.kwargs) (x : TableElement.t) :
  TableElement.init kw = Ok x ->
  TableElement.kw_content kw = Some (TableElement.content x) /\
  (forall g, TableElement.kw_content kw = Some g ->
     (rectangular (TableElement.content x) <-> is_rectangular g = true)) /\
  (forall g, is_ok (TableElement.init
                      (TableElement.Kwargs (TableElement.kw_type kw)
                         (TableElement.kw_position kw) (TableElement.kw_style kw)
                         (Some g))) = true).
Proof.
  destruct kw as [ty pos sty g]. unfold TableElement.init. simpl.
  destruct g as [g|]; simpl; intros H; try discriminate.
  injection H as <-. simpl. split; [reflexivity|]. split; [|reflexivity].
  intros g' Hg. injection Hg as <-. symmetry. apply is_rectangular_spec.
Qed.

Lemma table_content_as_supplied_witness :
  let r := TextRun.mk "Q1" (TextStyle.mk false false None None) in
  let g := [[[r]; [r]]; [[r]; []]] in
  let kw := TableElement.Kwargs None None None (Some g) in
  exists x, TableElement.init kw = Ok x /\ rectangular (TableElement.content x).
Proof.
  intros r g kw. eexists. split; [reflexivity|].
  match goal with
  | |- rectangular (TableElement.content ?x) =>
      destruct (table_content_as_supplied kw x eq_refl) as (_ & Hg & _)
  end.
  apply (Hg g); reflexivity.
Defined.

(** C6 fails as stated: a table whose rows have two cells and one cell is
    constructed. *)
Lemma ragged_table_accepted :
  let r := TextRun.mk "Q1" (TextStyle.mk false false None None) in
  let g := [[[r]; [r]]; [[r]]] in
  exists x,
    TableElement.init (TableElement.Kwargs None None None (Some g)) = Ok x /\
    ~ rectangular (TableElement.content x).
Proof.
  intros r g. eexists. split; [reflexivity|]. simpl.
  intros H. specialize (H [[r]; [r]] [[r]]).
  discriminate H; [apply list_elem_of_here |].
  apply list_elem_of_further, list_elem_of_here.
Qed.

(** ** Column markers *)

Lemma depth_from_shift (es : list SlideElement) (d : Z) :
  depth_from d es = d + depth es.
Proof.
  unfold depth. revert d.
  induction es as [|e es IH]; intros d; simpl; [lia|].
  rewrite (IH (d + column_delta e)), (IH (0 + column_delta e)). lia.
Qed.

Lemma depth_nil : depth [] = 0.
Proof. reflexivity. Qed.

Lemma depth_cons (e : SlideElement) (es : list SlideElement) :
  depth (e :: es) = column_delta e + depth es.
Proof.
  unfold depth at 1. simpl. rewrite depth_from_shift. lia.
Qed.

Lemma column_delta_cases (e : SlideElement) :
  (is_column_start e = true /\ is_column_end e = false /\ column_delta e = 1) \/
  (is_column_start e = false /\ is_column_end e = true /\ column_delta e = -1) \/
  (is_column_start e = false /\ is_column_end e = false /\ column_delta e = 0).
Proof. destruct e; unfold column_delta; simpl; tauto. Qed.

Lemma well_formed_from_nil (inside : bool) :
  well_formed_from inside [] <-> inside = false.
Proof.
  split.
  - intros (_ & Hopen & _ & _). destruct inside; [|reflexivity].
    destruct (Hopen eq_refl) as (q1 & e' & q2 & Heq & _).
    destruct q1; discriminate Heq.
  - intros ->. repeat split.
    + intros p q Heq. symmetry in Heq. apply app_eq_nil in Heq as [-> _].
      rewrite depth_nil. simpl. lia.
    + discriminate.
    + intros p e q Heq. destruct p; discriminate Heq.
    + intros p e q Heq. destruct p; discriminate Heq.
Qed.

Lemma well_formed_from_cons (inside : bool) (e : SlideElement)
    (es : list SlideElement) :
  well_formed_from inside (e :: es) <->
  (Z.b2z inside + column_delta e = 0 \/ Z.b2z inside + column_delta e = 1) /\
  well_formed_from (Z.b2z inside + column_delta e =? 1) es.
Proof.
  split.
  - intros (Hd & Hopen & Hst & Hend).
    assert (Hhead : Z.b2z inside + column_delta e = 0 \/
                    Z.b2z inside + column_delta e = 1).
    { specialize (Hd [e] es eq_refl). rewrite depth_cons, depth_nil in Hd. lia. }
    assert (Hb : Z.b2z (Z.b2z inside + column_delta e =? 1)
                 = Z.b2z inside + column_delta e).
    { destruct Hhead as [-> | ->]; reflexivity. }
    split; [exact Hhead|]. unfold well_formed_from. rewrite Hb.
    split; [|split; [|split]].
    + intros p q ->. specialize (Hd (e :: p) q eq_refl).
      rewrite depth_cons in Hd. lia.
    + intros Hin. apply Z.eqb_eq in Hin.
      destruct (column_delta_cases e) as [(Hs & _ & Hc) | [(_ & _ & Hc) | (_ & He & Hc)]].
      * exact (Hst [] e es eq_refl Hs).
      * destruct inside; simpl in Hin; lia.
      * assert (inside = true) as -> by (destruct inside; simpl in Hin; [reflexivity | lia]).
        destruct (Hopen eq_refl) as (q1 & e' & q2 & Heq & He').
        destruct q1 as [|a q1]; simpl in Heq; injection Heq as -> ->.
        -- congruence.
        -- eauto.
    + intros p x q -> Hx. exact (Hst (e :: p) x q eq_refl Hx).
    + intros p x q -> Hx. specialize (Hend (e :: p) x q eq_refl Hx).
      rewrite depth_cons in Hend. lia.
  - intros (Hhead & Hd & Hopen & Hst & Hend).
    assert (Hb : Z.b2z (Z.b2z inside + column_delta e =? 1)
                 = Z.b2z inside + column_delta e).
    { destruct Hhead as [-> | ->]; reflexivity. }
    rewrite Hb in Hd, Hend.
    split; [|split; [|split]].
    + intros p q Heq. destruct p as [|a p]; simpl in Heq.
      * rewrite depth_nil. destruct inside; simpl; lia.
      * injection Heq as <- ->. specialize (Hd p q eq_refl).
        rewrite depth_cons. lia.
    + intros ->. simpl in Hhead.
      destruct (column_delta_cases e) as [(_ & _ & Hc) | [(_ & He & _) | (_ & _ & Hc)]].
      * lia.
      * exists [], e, es. split; [reflexivity | exact He].
      * destruct Hopen as (q1 & e' & q2 & -> & He').
        { rewrite Hc. reflexivity. }
        exists (e :: q1), e', q2. split; [reflexivity | exact He'].
    + intros p x q Heq Hx. destruct p as [|a p]; simpl in Heq.
      * injection Heq as -> ->.
        destruct (column_delta_cases x) as [(_ & _ & Hc) | [(Hs & _ & _) | (Hs & _ & _)]];
          [|congruence|congruence].
        apply Hopen. apply Z.eqb_eq. destruct inside; simpl in *; lia.
      * injection Heq as <- ->. exact (Hst p x q eq_refl Hx).
    + intros p x q Heq Hx. destruct p as [|a p]; simpl in Heq.
      * injection Heq as -> ->. rewrite depth_nil.
        destruct (column_delta_cases x) as [(_ & He & _) | [(_ & _ & Hc) | (_ & He & _)]];
          [congruence| |congruence].
        destruct inside; simpl in *; lia.
      * injection Heq as <- ->. specialize (Hend p x q eq_refl Hx).
        rewrite depth_cons. lia.
Qed.

Lemma scan_columns_spec (es : list SlideElement) (inside : bool) :
  scan_columns inside es = true <-> well_formed_from inside es.
Proof.
  revert inside. induction es as [|e es IH]; intros inside.
  - rewrite well_formed_from_nil. simpl. destruct inside; simpl; split; congruence.
  - rewrite well_formed_from_cons. simpl.
    destruct (column_delta_cases e) as [(-> & _ & ->) | [(-> & -> & ->) | (-> & -> & ->)]].
    + destruct inside; simpl.
      * split; [discriminate | lia].
      * rewrite IH. intuition.
    + destruct inside; simpl.
      * rewrite IH. intuition.
      * split; [discriminate | lia].
    + rewrite IH. destruct inside; simpl; intuition.
Qed.

Lemma columns_balanced_spec (es : list SlideElement) :
  columns_balanced es = true <-> columns_well_formed es.
Proof.
  unfold columns_balanced. rewrite scan_columns_spec.
  unfold well_formed_from, columns_well_formed, depth_bounded, no_stray_end.
  simpl. split.
  - intros (Hd & _ & Hst & Hend). repeat split; assumption.
  - intros (Hd & Hst & Hend). split; [exact Hd|].
    split; [discriminate|]. split; assumption.
Qed.

Example nested_columns_rejected :
  let a := OfColumnStart (ColumnStartElement.mk ElementType.COLUMN_START None None "50%") in
  let z := OfColumnEnd (ColumnEndElement.mk ElementType.COLUMN_END None None) in
  columns_balanced [a; a; z; z] = false /\ columns_balanced [a] = false /\
  columns_balanced [a; z; a; z] = true /\ columns_balanced [] = true.
Proof. repeat split. Qed.

(** C3, as the code has it: [elements] is an unconstrained list.  A [Slide]
    holds the sequence supplied and the constructor accepts every
    sequence; the markers of the slide are balanced and not nested (depth
    0 or 1 after every prefix, every [ColumnStart] followed later by a
    [ColumnEnd], no [ColumnEnd] at depth 0) exactly when the sequence
    supplied passes the one-pass scan. *)
Theorem slide_columns_as_supplied (kw : Slide.kwargs) (s : Slide.t) :
  Slide.init kw = Ok s ->
  Slide.kw_elements kw = Some (Slide.elements s) /\
  (forall es, Slide.kw_elements kw = Some es ->
     (columns_well_formed (Slide.elements s) <-> columns_balanced es = true)) /\
  (forall es, is_ok (Slide.init (Slide.Kwargs (Some es) (Slide.kw_notes kw))) = true).
Proof.
  destruct kw as [es ns]. unfold Slide.init. simpl.
  destruct es as [es|], ns as [ns|]; simpl; intros H; try discriminate.
  injection H as <-. simpl. split; [reflexivity|]. split; [|reflexivity].
  intros es' Hes. injection Hes as <-. symmetry. apply columns_balanced_spec.
Qed.

Lemma slide_columns_as_supplied_witness :
  let r := TextRun.mk "Left side" (TextStyle.mk false false None None) in
  let es := [OfTitle (TitleElement.mk ElementType.TITLE None None "Plan" 1);
             OfColumnStart (ColumnStartElement.mk ElementType.COLUMN_START None None "50%");
             OfParagraph (ParagraphElement.mk ElementType.PARAGRAPH None None [r]);
             OfColumnEnd (ColumnEndElement.mk ElementType.COLUMN_END None None)] in
  let kw := Slide.Kwargs (Some es) (Some []) in
  exists s, Slide.init kw = Ok s /\ columns_well_formed (Slide.elements s).
Proof.
  intros r es kw. eexists. split; [reflexivity|].
  match goal with
  | |- columns_well_formed (Slide.elements ?s) =>
      destruct (slide_columns_as_supplied kw s eq_refl) as (_ & Hes & _)
  end.
  apply (Hes es); reflexivity.
Defined.

(** C3 fails as stated: a slide whose only element is a [ColumnEnd] is
    constructed, and so is a presentation that holds it. *)
Lemma stray_column_end_accepted :
  let e := OfColumnEnd (ColumnEndElement.mk ElementType.COLUMN_END None None) in
  exists s p,
    Slide.init (Slide.Kwargs (Some [e]) (Some [])) = Ok s /\
    ParsedPresentation.init (ParsedPresentation.Kwargs (Some [s])) = Ok p /\
    s ∈ ParsedPresentation.slides p /\
    ~ columns_well_formed (Slide.elements s).
Proof.
  intros e. eexists. eexists. split; [reflexivity|]. split; [reflexivity|].
  split; [apply list_elem_of_here|].
  rewrite <- columns_balanced_spec. simpl. discriminate.
Qed.


(** * Further properties of the declared classes *)

(** ** ElementType *)

(** X1: looking a member up by its value gives the member back, a lookup
    that succeeds returns a member with exactly that value, and a string
    that is the value of no member is refused. *)
Theorem element_type_value_round_trip (t : ElementType.t) (s : string) :
  element_type_of_value (ElementType.value t) = Some t /\
  (element_type_of_value s = Some t <-> ElementType.value t = s) /\
  (element_type_of_value s = None <-> forall t', ElementType.value t' <> s).
Proof.
  assert (Hrt : forall u, element_type_of_value (ElementType.value u) = Some u)
    by (intros u; destruct u; reflexivity).
  assert (Hsound : forall u, element_type_of_value s = Some u -> ElementType.value u = s).
  { intros u Hu. unfold element_type_of_value in Hu.
    apply find_some in Hu as [_ Hu]. apply String.eqb_eq, Hu. }
  split; [apply Hrt|]. split; [|split].
  - split; [apply Hsound | intros <-; apply Hrt].
  - intros Hn t' <-. rewrite Hrt in Hn. discriminate.
  - intros Hn. destruct (element_type_of_value s) as [u|] eqn:Hu; [|reflexivity].
    exfalso. exact (Hn u (Hsound u eq_refl)).
Qed.

(** ** Element classes *)

(** X2: a call of an element class succeeds exactly when it passes every
    keyword the class declares without default ([content] and [level] for
    a title, [content] for a list item, paragraph, table or note, [path]
    for an image, [width] for a column start, none for a column end);
    otherwise the validation error names the omitted ones in field order.
    The instance has the class that was called. *)
Theorem element_required_fields (c : element_call) :
  errors (construct c) = call_missing c /\
  (is_ok (construct c) = true <-> call_missing c = []) /\
  (forall e, construct c = Ok e -> class_of e = called_class c).
Proof.
  split; [|split].
  - destruct c as [kw|kw|kw|kw|kw|kw|kw|kw]; destruct kw; simpl;
      case_required; reflexivity.
  - destruct c as [kw|kw|kw|kw|kw|kw|kw|kw]; destruct kw; simpl;
      case_required; split; intros H; (reflexivity || discriminate H).
  - intros e H. apply (construct_ok_base c e H).
Qed.

Lemma element_required_fields_witness :
  let c := CallListItem (ListItemElement.Kwargs None None None (Some []) None) in
  exists e, construct c = Ok e /\ class_of e = ListItemElement_.
Proof.
  intros c. eexists. split; [reflexivity|].
  match goal with
  | |- class_of ?e = _ =>
      exact (proj2 (proj2 (element_required_fields c)) e eq_refl)
  end.
Defined.

(** X3: for elements constructed without the [type] keyword, dispatch on
    the tag agrees with dispatch on the class: two such elements have the
    same tag exactly when they have the same class, and the tag is
    [COLUMN_START] (resp. [COLUMN_END]) exactly for instances of
    [ColumnStartElement] (resp. [ColumnEndElement]). *)
Theorem default_tag_dispatch (c1 c2 : element_call) (e1 e2 : SlideElement) :
  construct c1 = Ok e1 -> construct c2 = Ok e2 ->
  call_type c1 = None -> call_type c2 = None ->
  (type_of e1 = type_of e2 <-> class_of e1 = class_of e2) /\
  (type_of e1 = ElementType.COLUMN_START <-> is_column_start e1 = true) /\
  (type_of e1 = ElementType.COLUMN_END <-> is_column_end e1 = true).
Proof.
  intros H1 H2 N1 N2.
  destruct (construct_ok_base c1 e1 H1) as (C1 & T1 & _ & _).
  destruct (construct_ok_base c2 e2 H2) as (C2 & T2 & _ & _).
  rewrite N1 in T1. rewrite N2 in T2. simpl in T1, T2.
  rewrite <- C1 in T1. rewrite <- C2 in T2. rewrite T1, T2.
  split; [|split].
  - split; [apply default_type_inj | intros ->; reflexivity].
  - destruct e1; simpl; split; intros H; (reflexivity || discriminate H).
  - destruct e1; simpl; split; intros H; (reflexivity || discriminate H).
Qed.

Lemma default_tag_dispatch_witness :
  let c1 := CallColumnStart (ColumnStartElement.Kwargs None None None (Some "50%")) in
  let c2 := CallColumnEnd (ColumnEndElement.Kwargs None None None) in
  exists e1 e2, construct c1 = Ok e1 /\ construct c2 = Ok e2 /\
    (type_of e1 = ElementType.COLUMN_START <-> is_column_start e1 = true).
Proof.
  intros c1 c2. eexists. eexists. split; [reflexivity|]. split; [reflexivity|].
  match goal with
  | |- type_of ?e1 = _ <-> _ =>
      exact (proj1 (proj2 (default_tag_dispatch c1 c2 e1 _ eq_refl eq_refl
                             eq_refl eq_refl)))
  end.
Defined.

(** X4: every value of the union is constructible: calling an element's
    class with all of the element's fields as keywords succeeds and
    returns the element itself, and two elements with the same explicit
    call are equal. *)
Theorem element_round_trip (e e' : SlideElement) :
  construct (element_call_of e) = Ok e /\
  called_class (element_call_of e) = class_of e /\
  call_missing (element_call_of e) = [] /\
  (element_call_of e = element_call_of e' -> e = e').
Proof.
  assert (Hrt : forall x, construct (element_call_of x) = Ok x)
    by (intros x; destruct x as [x|x|x|x|x|x|x|x]; destruct x; reflexivity).
  split; [apply Hrt|]. split; [destruct e; reflexivity|].
  split; [destruct e; reflexivity|].
  intros Heq. pose proof (Hrt e) as He. rewrite Heq, Hrt in He.
  injection He as ->. reflexivity.
Qed.

Lemma element_round_trip_witness :
  let e := OfColumnEnd (ColumnEndElement.mk ElementType.COLUMN_END None None) in
  construct (element_call_of e) = Ok e.
Proof.
  intros e. exact (proj1 (element_round_trip e e)).
Defined.

(** ** Value objects, slides and presentations *)

Ltac no_is_Some_None :=
  repeat match goal with
         | H : _ /\ _ |- _ => destruct H
         end;
  match goal with
  | H : is_Some None |- _ => destruct H as [? H]; discriminate H
  end.

Ltac required_cases :=
  split; [reflexivity|];
  split; intros H;
  first [ discriminate H
        | reflexivity
        | repeat split; eexists; reflexivity
        | exfalso; no_is_Some_None ].

(** X5: which keywords the remaining classes need.  [TextStyle] never
    fails; [TextRun] needs [text] and [style]; [Position] needs all four
    of [left], [top], [width], [height]; [BaseElement], unlike its
    subclasses, needs [type]; [Slide] needs [elements] and [notes];
    [ParsedPresentation] needs [slides].  A failing call names exactly the
    omitted keywords, in field order. *)
Theorem model_required_fields :
  (forall kw, is_ok (TextStyle.init kw) = true) /\
  (forall kw, errors (TextRun.init kw) =
     omitted "text" (TextRun.kw_text kw) ++ omitted "style" (TextRun.kw_style kw) /\
     (is_ok (TextRun.init kw) = true <->
        is_Some (TextRun.kw_text kw) /\ is_Some (TextRun.kw_style kw))) /\
  (forall kw, errors (Position.init kw) =
     omitted "left" (Position.kw_left kw) ++ omitted "top" (Position.kw_top kw) ++
     omitted "width" (Position.kw_width kw) ++ omitted "height" (Position.kw_height kw) /\
     (is_ok (Position.init kw) = true <->
        is_Some (Position.kw_left kw) /\ is_Some (Position.kw_top kw) /\
        is_Some (Position.kw_width kw) /\ is_Some (Position.kw_height kw))) /\
  (forall kw, errors (BaseElement.init kw) = omitted "type" (BaseElement.kw_type kw) /\
     (is_ok (BaseElement.init kw) = true <-> is_Some (BaseElement.kw_type kw))) /\
  (forall kw, errors (Slide.init kw) =
     omitted "elements" (Slide.kw_elements kw) ++ omitted "notes" (Slide.kw_notes kw) /\
     (is_ok (Slide.init kw) = true <->
        is_Some (Slide.kw_elements kw) /\ is_Some (Slide.kw_notes kw))) /\
  (forall kw, errors (ParsedPresentation.init kw) =
     omitted "slides" (ParsedPresentation.kw_slides kw) /\
     (is_ok (ParsedPresentation.init kw) = true <->
        is_Some (ParsedPresentation.kw_slides kw))).
Proof.
  repeat apply conj.
  - intros []. reflexivity.
  - intros [t s]. unfold TextRun.init. simpl. destruct t, s; simpl; required_cases.
  - intros [l t w h]. unfold Position.init. simpl.
    destruct l, t, w, h; simpl; required_cases.
  - intros [t p s]. unfold BaseElement.init. simpl. destruct t; simpl; required_cases.
  - intros [e n]. unfold Slide.init. simpl. destruct e, n; simpl; required_cases.
  - intros [sl]. unfold ParsedPresentation.init. simpl.
    destruct sl; simpl; required_cases.
Qed.

(** ** ConversionConfig: explicit calls and assignment *)

Section ConfigAlgebra.

Import ConversionConfig.

(** X6: every configuration is constructible: calling [ConversionConfig]
    with all fields of a configuration as keywords succeeds and returns
    that configuration; in particular a configuration obtained from any
    call is obtained again from its own fields, and configurations with
    the same explicit call are equal. *)
Theorem config_round_trip (c c' : t) :
  init (config_kwargs_of c) = Ok c /\
  (forall kw, init kw = Ok c -> init (config_kwargs_of c) = init kw) /\
  (config_kwargs_of c = config_kwargs_of c' -> c = c').
Proof.
  assert (Hrt : forall x, init (config_kwargs_of x) = Ok x)
    by (intros x; destruct x; reflexivity).
  split; [apply Hrt|]. split.
  - intros kw Hkw. rewrite Hkw. apply Hrt.
  - intros Heq. pose proof (Hrt c) as Hc. rewrite Heq, Hrt in Hc.
    injection Hc as ->. reflexivity.
Qed.

Lemma config_round_trip_witness :
  let kw := only_required (mkPath "deck.pptx") (mkPath "out.md") None None in
  exists c, init kw = Ok c /\ init (config_kwargs_of c) = init kw.
Proof.
  intros kw. eexists. split; [reflexivity|].
  match goal with
  | |- init (config_kwargs_of ?c) = _ =>
      exact (proj1 (proj2 (config_round_trip c c)) kw eq_refl)
  end.
Defined.

End ConfigAlgebra.

(** * Objects, references and mutation *)

Section ObjectStore.

Import Objects.

Lemma lookup_prefix (h h' : list obj) (r : nat) (o : obj) :
  h `prefix_of` h' -> h !! r = Some o -> h' !! r = Some o.
Proof. intros [k ->] H. apply lookup_app_l_Some, H. Qed.

Lemma getattr_prefix (h h' : list obj) (r : nat) (f : string) (v : val) :
  h `prefix_of` h' -> getattr h r f = Some v -> getattr h' r f = Some v.
Proof.
  unfold getattr. intros Hp H. destruct (h !! r) as [o|] eqn:Ho; [|discriminate].
  rewrite (lookup_prefix h h' r o Hp Ho). exact H.
Qed.

Lemma list_items_prefix (h h' : list obj) (l : nat) (items : list val) :
  h `prefix_of` h' -> list_items h l = Some items -> list_items h' l = Some items.
Proof.
  unfold list_items. intros Hp H. destruct (h !! l) as [o|] eqn:Ho; [|discriminate].
  rewrite (lookup_prefix h h' l o Hp Ho). exact H.
Qed.

(** *** Mutations change one object *)

Lemma setattr_spec (h : list obj) (r : nat) (c : model_class)
    (attrs : gmap string val) (f : string) (v : val) :
  h !! r = Some (Instance c attrs) -> f ∈ model_fields c ->
  setattr h r f v = Some (<[r := Instance c (<[f := v]> attrs)]> h).
Proof.
  intros Hr Hf. unfold setattr. rewrite Hr.
  rewrite bool_decide_eq_true_2 by exact Hf. reflexivity.
Qed.

Lemma setattr_undeclared (h : list obj) (r : nat) (c : model_class)
    (attrs : gmap string val) (f : string) (v : val) :
  h !! r = Some (Instance c attrs) -> f ∉ model_fields c ->
  setattr h r f v = None.
Proof.
  intros Hr Hf. unfold setattr. rewrite Hr.
  rewrite bool_decide_eq_false_2 by exact Hf. reflexivity.
Qed.

(** After [<[r := o]> h] with [r] allocated, [r] holds [o] and every other
    reference holds what it held. *)
Lemma lookup_update (h : list obj) (r r' : nat) (o o' : obj) :
  h !! r = Some o ->
  <[r := o']> h !! r' = if decide (r' = r) then Some o' else h !! r'.
Proof.
  intros Hr. destruct (decide (r' = r)) as [->|Hne].
  - apply list_lookup_insert_eq. apply lookup_lt_Some in Hr. exact Hr.
  - apply list_lookup_insert_ne. congruence.
Qed.

Lemma run_reads_only (ops : list op) (h : list obj) :
  forallb reads_only ops = true ->
  Forall (fun o => is_Some (step h o)) ops ->
  run ops h = Some h.
Proof.
  induction ops as [|o ops IH]; simpl; [reflexivity|].
  intros H Hdef. apply andb_true_iff in H as [Ho Hops].
  apply Forall_cons in Hdef as [[h' Hh'] Hdef].
  assert (h' = h) as ->.
  { destruct o; try discriminate Ho; simpl in Hh';
      match type of Hh' with
      | match ?x with _ => _ end = _ => destruct x; congruence
      end. }
  rewrite Hh'. apply IH; assumption.
Qed.

(** *** Construction only allocates *)

Lemma new_spec (c : model_class) (attrs : list (string * val)) (h : list obj) :
  new c attrs h = (VRef (length h), h ++ [Instance c (list_to_map attrs)]).
Proof. reflexivity. Qed.

Lemma new_list_spec (items : list val) (h : list obj) :
  new_list items h = (VRef (length h), h ++ [PyList items]).
Proof. reflexivity. Qed.

Lemma store_all_prefix {A : Type} (store : A -> list obj -> val * list obj) :
  (forall x h, h `prefix_of` (store x h).2) ->
  forall xs h, h `prefix_of` (store_all store xs h).2.
Proof.
  intros Hst xs. induction xs as [|x xs IH]; intros h; simpl; [reflexivity|].
  pose proof (Hst x h) as H1. destruct (store x h) as [v h1]. simpl in H1.
  pose proof (IH h1) as H2. destruct (store_all store xs h1) as [vs h2].
  simpl in *. etransitivity; eassumption.
Qed.

Lemma store_all_length {A : Type} (store : A -> list obj -> val * list obj)
    (xs : list A) (h : list obj) :
  length (store_all store xs h).1 = length xs.
Proof.
  revert h. induction xs as [|x xs IH]; intros h; simpl; [reflexivity|].
  destruct (store x h) as [v h1]. pose proof (IH h1) as H.
  destruct (store_all store xs h1) as [vs h2]. simpl in *. congruence.
Qed.

Lemma store_all_Forall2 {A : Type} (store : A -> list obj -> val * list obj)
    (P : A -> val -> list obj -> Prop) :
  (forall x h, h `prefix_of` (store x h).2 /\ P x (store x h).1 (store x h).2) ->
  (forall x v h h', P x v h -> h `prefix_of` h' -> P x v h') ->
  forall xs h,
    Forall2 (fun x v => P x v (store_all store xs h).2) xs (store_all store xs h).1.
Proof.
  intros Hst Hmono xs. induction xs as [|x xs IH]; intros h; simpl; [constructor|].
  destruct (Hst x h) as [Hp HP]. destruct (store x h) as [v h1]. simpl in *.
  pose proof (IH h1) as Hrest.
  pose proof (store_all_prefix store (fun y k => proj1 (Hst y k)) xs h1) as Hp2.
  destruct (store_all store xs h1) as [vs h2]. simpl in *.
  constructor; [eapply Hmono; eassumption | exact Hrest].
Qed.

Lemma store_list_prefix {A : Type} (store : A -> list obj -> val * list obj) :
  (forall x h, h `prefix_of` (store x h).2) ->
  forall xs h, h `prefix_of` (store_list store xs h).2.
Proof.
  intros Hst xs h. unfold store_list.
  pose proof (store_all_prefix store Hst xs h) as H.
  destruct (store_all store xs h) as [vs h1]. simpl in *.
  etransitivity; [exact H|]. apply prefix_app_r. reflexivity.
Qed.

Lemma store_opt_prefix {A : Type} (store : A -> list obj -> val * list obj) :
  (forall x h, h `prefix_of` (store x h).2) ->
  forall x h, h `prefix_of` (store_opt store x h).2.
Proof. intros Hst [x|] h; simpl; [apply Hst | reflexivity]. Qed.

Lemma new_prefix (c : model_class) (attrs : list (string * val)) (h : list obj) :
  h `prefix_of` (new c attrs h).2.
Proof. rewrite new_spec. simpl. apply prefix_app_r. reflexivity. Qed.

Lemma store_style_prefix (s : TextStyle.t) (h : list obj) :
  h `prefix_of` (store_style s h).2.
Proof. apply new_prefix. Qed.

Lemma store_position_prefix (p : Position.t) (h : list obj) :
  h `prefix_of` (store_position p h).2.
Proof. apply new_prefix. Qed.

Lemma store_run_prefix (r : TextRun.t) (h : list obj) :
  h `prefix_of` (store_run r h).2.
Proof.
  unfold store_run. pose proof (store_style_prefix (TextRun.style r) h) as H.
  destruct (store_style (TextRun.style r) h) as [s h1]. simpl in H.
  etransitivity; [exact H | apply new_prefix].
Qed.

Lemma store_element_prefix (e : SlideElement) (h : list obj) :
  h `prefix_of` (store_element e h).2.
Proof.
  unfold store_element.
  pose proof (store_opt_prefix store_position store_position_prefix (position_of e) h) as H1.
  destruct (store_opt store_position (position_of e) h) as [p h1]. simpl in H1.
  pose proof (store_opt_prefix store_style store_style_prefix (style_of e) h1) as H2.
  destruct (store_opt store_style (style_of e) h1) as [s h2]. simpl in H2.
  assert (H : h `prefix_of` h2) by (etransitivity; eassumption).
  assert (Hruns : forall xs k, k `prefix_of` (store_list store_run xs k).2)
    by (apply store_list_prefix, store_run_prefix).
  destruct e as [x|x|x|x|x|x|x|x];
    try (etransitivity; [exact H | apply new_prefix]).
  - pose proof (Hruns (ListItemElement.content x) h2) as H3.
    destruct (store_list store_run (ListItemElement.content x) h2) as [c h3].
    simpl in H3. etransitivity; [exact H|]. etransitivity; [exact H3 | apply new_prefix].
  - pose proof (Hruns (ParagraphElement.content x) h2) as H3.
    destruct (store_list store_run (ParagraphElement.content x) h2) as [c h3].
    simpl in H3. etransitivity; [exact H|]. etransitivity; [exact H3 | apply new_prefix].
  - assert (H3 : h2 `prefix_of`
                 (store_list (store_list (store_list store_run))
                    (TableElement.content x) h2).2)
      by (apply store_list_prefix, store_list_prefix, Hruns).
    destruct (store_list (store_list (store_list store_run))
                (TableElement.content x) h2) as [c h3].
    simpl in H3. etransitivity; [exact H|]. etransitivity; [exact H3 | apply new_prefix].
  - pose proof (Hruns (NoteElement.content x) h2) as H3.
    destruct (store_list store_run (NoteElement.content x) h2) as [c h3].
    simpl in H3. etransitivity; [exact H|]. etransitivity; [exact H3 | apply new_prefix].
Qed.

Lemma store_all_str (xs : list string) (h : list obj) :
  store_all store_str xs h = (VStr <$> xs, h).
Proof.
  induction xs as [|x xs IH]; simpl; [reflexivity|]. rewrite IH. reflexivity.
Qed.

Lemma holds_slide_prefix (s : Slide.t) (v : val) (h h' : list obj) :
  holds_slide s v h -> h `prefix_of` h' -> holds_slide s v h'.
Proof.
  intros (r & es & ns & items & -> & Hr & Hes & Hlen & Hns) Hp.
  exists r, es, ns, items.
  repeat split; try assumption; eapply lookup_prefix; eassumption.
Qed.

Lemma store_slide_prefix (s : Slide.t) (h : list obj) :
  h `prefix_of` (store_slide s h).2.
Proof.
  unfold store_slide.
  pose proof (store_list_prefix store_element store_element_prefix (Slide.elements s) h) as H1.
  destruct (store_list store_element (Slide.elements s) h) as [es h1]. simpl in H1.
  unfold store_list. rewrite store_all_str, new_list_spec, new_spec. simpl.
  etransitivity; [exact H1|]. rewrite <- app_assoc. apply prefix_app_r. reflexivity.
Qed.

Lemma store_slide_holds (s : Slide.t) (h : list obj) :
  holds_slide s (store_slide s h).1 (store_slide s h).2.
Proof.
  unfold store_slide, store_list.
  pose proof (store_all_length store_element (Slide.elements s) h) as Hlen.
  destruct (store_all store_element (Slide.elements s) h) as [vs h1]. simpl in Hlen.
  rewrite new_list_spec, store_all_str, new_list_spec, new_spec. simpl.
  exists (length ((h1 ++ [PyList vs]) ++ [PyList (VStr <$> Slide.notes s)])),
    (length h1), (length (h1 ++ [PyList vs])), vs.
  split; [reflexivity|]. split; [|split; [|split]].
  - apply list_lookup_middle. reflexivity.
  - rewrite <- !app_assoc. apply list_lookup_middle. reflexivity.
  - exact Hlen.
  - rewrite <- (app_assoc (h1 ++ [PyList vs]) [_] [_]).
    apply list_lookup_middle. reflexivity.
Qed.

Lemma store_presentation_holds (p : ParsedPresentation.t) (h : list obj) :
  h `prefix_of` (store_presentation p h).2 /\
  holds_presentation p (store_presentation p h).1 (store_presentation p h).2.
Proof.
  unfold store_presentation, store_list.
  pose proof (store_all_prefix store_slide store_slide_prefix
                (ParsedPresentation.slides p) h) as Hp.
  pose proof (store_all_Forall2 store_slide holds_slide
                (fun s k => conj (store_slide_prefix s k) (store_slide_holds s k))
                holds_slide_prefix (ParsedPresentation.slides p) h) as Hall.
  destruct (store_all store_slide (ParsedPresentation.slides p) h) as [refs h1].
  simpl in Hp, Hall. rewrite new_list_spec, new_spec. simpl. split.
  - etransitivity; [exact Hp|]. rewrite <- app_assoc. apply prefix_app_r. reflexivity.
  - exists (length (h1 ++ [PyList refs])), (length h1), refs.
    split; [reflexivity|]. split; [|split].
    + apply list_lookup_middle. reflexivity.
    + rewrite <- app_assoc. apply list_lookup_middle. reflexivity.
    + eapply Forall2_impl; [exact Hall|]. intros s v Hs.
      eapply holds_slide_prefix; [exact Hs|].
      rewrite <- app_assoc. apply prefix_app_r. reflexivity.
Qed.

Lemma store_config_holds (c : ConversionConfig.t) (h : list obj) :
  h `prefix_of` (store_config c h).2 /\
  holds_config c (store_config c h).1 (store_config c h).2.
Proof.
  unfold store_config, alloc. rewrite new_spec. simpl. split.
  - rewrite <- app_assoc. apply prefix_app_r. reflexivity.
  - exists (length (h ++ [PyDict (VInt <$> ConversionConfig.custom_titles c)])),
      (length h).
    split; [reflexivity|]. split.
    + apply list_lookup_middle. reflexivity.
    + rewrite <- app_assoc. apply list_lookup_middle. reflexivity.
Qed.

(** *** The effect of each mutation *)

Lemma setattr_effect (h : list obj) (r : nat) (c : model_class)
    (attrs : gmap string val) (f : string) (v : val) :
  h !! r = Some (Instance c attrs) -> f ∈ model_fields c ->
  exists h', setattr h r f v = Some h' /\
    getattr h' r f = Some v /\
    (forall g, g <> f -> getattr h' r g = getattr h r g) /\
    (forall r', r' <> r -> h' !! r' = h !! r').
Proof.
  intros Hr Hf. eexists. split; [apply (setattr_spec h r c attrs f v Hr Hf)|].
  unfold getattr. rewrite !(lookup_update h r r _ _ Hr), Hr.
  rewrite decide_True by reflexivity. split; [apply lookup_insert_eq|]. split.
  - intros g Hg. apply lookup_insert_ne. congruence.
  - intros r' Hr'. rewrite (lookup_update h r r' _ _ Hr).
    rewrite decide_False by exact Hr'. reflexivity.
Qed.

Lemma list_append_effect (h : list obj) (l : nat) (items : list val) (v : val) :
  h !! l = Some (PyList items) ->
  exists h', list_append h l v = Some h' /\
    list_items h' l = Some (items ++ [v]) /\
    (forall r f, getattr h' r f = getattr h r f) /\
    (forall r', r' <> l -> h' !! r' = h !! r').
Proof.
  intros Hl. unfold list_append. rewrite Hl. eexists. split; [reflexivity|].
  unfold list_items, getattr. split; [|split].
  - rewrite (lookup_update h l l _ _ Hl), decide_True by reflexivity. reflexivity.
  - intros r f. rewrite (lookup_update h l r _ _ Hl).
    destruct (decide (r = l)) as [->|]; [rewrite Hl|]; reflexivity.
  - intros r' Hr'. rewrite (lookup_update h l r' _ _ Hl).
    rewrite decide_False by exact Hr'. reflexivity.
Qed.

Lemma list_setitem_effect (h : list obj) (l i : nat) (items : list val) (v : val) :
  h !! l = Some (PyList items) ->
  (if bool_decide (i < length items)%nat
   then exists h', list_setitem h l i v = Some h' /\
          list_items h' l = Some (<[i := v]> items) /\
          list_getitem h' l i = Some v /\
          (forall r f, getattr h' r f = getattr h r f) /\
          (forall r', r' <> l -> h' !! r' = h !! r')
   else list_setitem h l i v = None).
Proof.
  intros Hl. unfold list_setitem. rewrite Hl.
  destruct (bool_decide (i < length items)%nat) eqn:Hi; [|reflexivity].
  apply bool_decide_eq_true in Hi.
  eexists. split; [reflexivity|].
  unfold list_getitem, list_items, getattr.
  rewrite (lookup_update h l l _ _ Hl), decide_True by reflexivity.
  split; [reflexivity|]. split; [apply list_lookup_insert_eq, Hi|]. split.
  - intros r f. rewrite (lookup_update h l r _ _ Hl).
    destruct (decide (r = l)) as [->|]; [rewrite Hl|]; reflexivity.
  - intros r' Hr'. rewrite (lookup_update h l r' _ _ Hl).
    rewrite decide_False by exact Hr'. reflexivity.
Qed.

Lemma dict_setitem_effect (h : list obj) (d : nat) (entries : gmap string val)
    (k : string) (v : val) :
  h !! d = Some (PyDict entries) ->
  exists h', dict_setitem h d k v = Some h' /\
    dict_entries h' d = Some (<[k := v]> entries) /\
    dict_getitem h' d k = Some v /\
    (forall r f, getattr h' r f = getattr h r f) /\
    (forall r', r' <> d -> h' !! r' = h !! r').
Proof.
  intros Hd. unfold dict_setitem. rewrite Hd. eexists. split; [reflexivity|].
  unfold dict_getitem, dict_entries, getattr.
  rewrite (lookup_update h d d _ _ Hd), decide_True by reflexivity.
  split; [reflexivity|]. split; [apply lookup_insert_eq|]. split.
  - intros r f. rewrite (lookup_update h d r _ _ Hd).
    destruct (decide (r = d)) as [->|]; [rewrite Hd|]; reflexivity.
  - intros r' Hr'. rewrite (lookup_update h d r' _ _ Hd).
    rewrite decide_False by exact Hr'. reflexivity.
Qed.






End ObjectStore.
